(** * tfplan-commenter: plan analysis and Markdown report

    A shallow embedding of the analysis and rendering functions of
    [main.go] (classification of resource changes, attribute diffing,
    replacement and deletion reasons, value formatting, single-plan and
    multi-plan Markdown), followed by theorems about them.

    Conventions.
    - A decoded JSON value ([interface{}] filled by [encoding/json]) is the
      inductive [value]; a Go [map[string]interface{}] is a [gmap string value].
    - Numbers decode to [float64]; the type and its [%v] formatter belong to
      the Go runtime and are taken as parameters of the development.
    - Go leaves the iteration order of [range] over a map unspecified, and the
      order may differ from one loop to the next. Every [range] whose order
      can be observed reads the order from an [Oracle]; a counter of the loops
      run so far is threaded through the code in the state monad [M].
    - String literals are copied byte for byte from the source file.
    - Go structs are records. Field names are the source's, except where two
      structs share a field name: [Change.Before]/[Change.After] keep their
      names, [AttributeChange.Before]/[After] are [AttrBefore]/[AttrAfter];
      [ResourceDetail.Address] keeps its name, the fields of
      [ResourceChange] carry the prefix [RC]. *)

From stdpp Require Import gmap strings list sorting pretty.

#[local] Set Warnings "-clear-no-such-hyp".

(** ** Strings *)

Definition LF : string := String (Ascii.ascii_of_nat 10) EmptyString.
Definition DQUOTE : string := String (Ascii.ascii_of_nat 34) EmptyString.

(** [strings.Join]. *)
Fixpoint Join (elems : list string) (sep : string) : string :=
  match elems with
  | [] => ""
  | [x] => x
  | x :: rest => x +:+ sep +:+ Join rest sep
  end.

(** [a < b] on Go strings: byte-wise lexicographic order. *)
Definition string_lt (a b : string) : bool := String.ltb a b.

(** ** Map iteration *)

(** [o n ks] is the order in which the [n]-th observed [range] loop of a run
    visits the keys [ks] of its map. *)
Definition Oracle : Type := nat → list string → list string.

(** Every [range] visits each key of the map exactly once. *)
Definition fair (o : Oracle) : Prop := ∀ n ks, o n ks ≡ₚ ks.

(** Computations that run [range] loops: the state is the number of loops
    run so far. *)
Definition M (A : Type) : Type := nat → A * nat.

Definition ret {A} (a : A) : M A := λ n, (a, n).

Definition bind {A B} (m : M A) (k : A → M B) : M B :=
  λ n, let (a, n') := m n in k a n'.

Definition run {A} (m : M A) (n : nat) : A := (m n).1.

(** [for key := range keys]: the keys in the order the oracle picks. *)
Definition rangeKeys (o : Oracle) (keys : gset string) : M (list string) :=
  λ n, (o n (elements keys), S n).

Notation "'let*' x ':=' m 'in' k" := (bind m (λ x, k))
  (at level 10, x name, m at level 100, k at level 200, only parsing).

(** A loop [for _, a := range l] over a slice whose body runs [range] loops. *)
Fixpoint foldM {A B} (f : B → A → M B) (b : B) (l : list A) : M B :=
  match l with
  | [] => ret b
  | a :: rest => let* b' := f b a in foldM f b' rest
  end.

(** [containsAction]. *)
Fixpoint containsAction (actions : list string) (action : string) : bool :=
  match actions with
  | [] => false
  | a :: rest => if bool_decide (a = action) then true else containsAction rest action
  end.

Definition skipAttributes : list string := ["id"; "arn"; "tags_all"; "timeouts"].

(** [shouldSkipAttribute]. *)
Definition shouldSkipAttribute (key : string) : bool :=
  (fix loop (skips : list string) : bool :=
     match skips with
     | [] => false
     | skip :: rest => if bool_decide (key = skip) then true else loop rest
     end) skipAttributes.


Section Plan.

Context {float64 : Type} (fmt_float64 : float64 → string).

(** ** Decoded JSON values *)

#[warnings="-register-all"]
Inductive value : Type :=
  | VNil
  | VBool (b : bool)
  | VNum (f : float64)
  | VStr (s : string)
  | VSlice (l : list value)
  | VMap (m : gmap string value).

(** Insertion of a rendered map entry in key order: [fmt] prints the entries
    of a map sorted by key. *)
Fixpoint insert_entry (e : string * string) (l : list (string * string))
  : list (string * string) :=
  match l with
  | [] => [e]
  | e' :: l' => if string_lt e.1 e'.1 then e :: l else e' :: insert_entry e l'
  end.

Definition sort_entries (l : list (string * string)) : list (string * string) :=
  foldr insert_entry [] l.

(** [fmt.Sprintf("%v", v)]. *)
Fixpoint Sprint (v : value) : string :=
  match v with
  | VNil => "<nil>"
  | VBool b => if b then "true" else "false"
  | VNum f => fmt_float64 f
  | VStr s => s
  | VSlice l => "[" +:+ Join (map Sprint l) " " +:+ "]"
  | VMap m =>
      "map[" +:+
      Join (map (λ e, e.1 +:+ ":" +:+ e.2)
              (sort_entries (map_to_list (Sprint <$> m)))) " "
      +:+ "]"
  end.

(** [deepEqual]: two values are equal when their [%v] renderings are. *)
Definition deepEqual (a b : value) : bool :=
  bool_decide (Sprint a = Sprint b).

(** ** The plan and the summary *)

Record Change : Type := mkChange {
  Actions : list string;
  Before : value;
  After : value;
  AfterUnknown : value
}.

Record ResourceChange : Type := mkResourceChange {
  RCAddress : string;
  RCModuleAddress : string;
  RCMode : string;
  RCType : string;
  RCName : string;
  RCProviderName : string;
  RCChange : Change
}.

Record TerraformPlan : Type := mkTerraformPlan {
  FormatVersion : string;
  TerraformVersion : string;
  ResourceChanges : list ResourceChange
}.

Record PlanInfo : Type := mkPlanInfo {
  Plan : TerraformPlan;
  RelativePath : string
}.

Record AttributeChange : Type := mkAttributeChange {
  Attribute : string;
  AttrBefore : value;
  AttrAfter : value;
  IsNew : bool;
  IsRemoved : bool
}.

Record ResourceDetail : Type := mkResourceDetail {
  Address : string;
  Changes : list AttributeChange;
  ForceReason : string
}.

Record ResourceSummary : Type := mkResourceSummary {
  Create : list ResourceDetail;
  Update : list ResourceDetail;
  Delete : list ResourceDetail;
  Replace : list ResourceDetail
}.


(** ** Attribute differ *)

(** One iteration of [for key := range allKeys] in [analyzeAttributeChanges]:
    [changes] is the slice built so far. *)
Definition diffKey (beforeMap afterMap : gmap string value)
    (changes : list AttributeChange) (key : string) : list AttributeChange :=
  let beforeVal := beforeMap !! key in
  let afterVal := afterMap !! key in
  if shouldSkipAttribute key then changes
  else
    match beforeVal, afterVal with
    | None, Some afterVal =>
        changes ++ [mkAttributeChange key VNil afterVal true false]
    | Some beforeVal, None =>
        changes ++ [mkAttributeChange key beforeVal VNil false true]
    | Some beforeVal, Some afterVal =>
        if negb (deepEqual beforeVal afterVal)
        then changes ++ [mkAttributeChange key beforeVal afterVal false false]
        else changes
    | None, None => changes
    end.

(** [analyzeAttributeChanges]. The two loops that fill [allKeys] build a set,
    whatever their order; the loop over [allKeys] asks the oracle. *)
Definition analyzeAttributeChanges (o : Oracle) (change : Change)
  : M (list AttributeChange) :=
  match Before change, After change with
  | VMap beforeMap, VMap afterMap =>
      let allKeys : gset string := dom beforeMap ∪ dom afterMap in
      let* keys := rangeKeys o allKeys in
      ret (foldl (diffKey beforeMap afterMap) [] keys)
  | _, _ => ret []
  end.

(** ** Reasons *)

Definition forceReplaceAttrs : list string :=
  ["name"; "family"; "engine"; "vpc_id"; "availability_zone"].

(** The inner loop of [determineReplaceReason] over [forceReplaceAttrs] for
    one attribute change: [Some] is the [return] inside the loop. *)
Fixpoint forceAttrLoop (attrChange : AttributeChange) (attrs : list string)
  : option string :=
  match attrs with
  | [] => None
  | forceAttr :: rest =>
      if bool_decide (Attribute attrChange = forceAttr)
      then Some ("Attribute '" +:+ Attribute attrChange +:+ "' changed from '"
                 +:+ Sprint (AttrBefore attrChange) +:+ "' to '"
                 +:+ Sprint (AttrAfter attrChange) +:+ "' (forces replacement)")
      else forceAttrLoop attrChange rest
  end.

(** The outer loop of [determineReplaceReason] over the changes. *)
Fixpoint forceReplaceLoop (changes : list AttributeChange) : option string :=
  match changes with
  | [] => None
  | attrChange :: rest =>
      match forceAttrLoop attrChange forceReplaceAttrs with
      | Some reason => Some reason
      | None => forceReplaceLoop rest
      end
  end.

(** [determineReplaceReason]. *)
Definition determineReplaceReason (o : Oracle) (change : Change) : M string :=
  let* changes := analyzeAttributeChanges o change in
  ret (match forceReplaceLoop changes with
       | Some reason => reason
       | None =>
           if decide (0 < length changes)
           then "Multiple attribute changes require replacement"
           else "Resource configuration requires replacement"
       end).

Definition keyAttrs : list string := ["name"; "id"; "family"; "engine"].

(** [determineDeleteReason]. *)
Definition determineDeleteReason (change : Change) : string :=
  match Before change with
  | VMap beforeMap =>
      let identifiers :=
        foldl (λ (identifiers : list string) (attr : string),
                 match beforeMap !! attr with
                 | Some VNil => identifiers
                 | Some val => identifiers ++ [attr +:+ ": " +:+ Sprint val]
                 | None => identifiers
                 end) [] keyAttrs in
      if decide (0 < length identifiers)
      then "Resource with " +:+ Join identifiers ", "
      else "Resource marked for deletion"
  | _ => "Resource marked for deletion"
  end.

(** ** Classifier *)

(** [sort.Slice] with [less = resources[i].Address < resources[j].Address],
    as the insertion sort the library runs on short slices: each element in
    turn moves left past the elements whose address is strictly greater. *)
Fixpoint insertDetail (r : ResourceDetail) (sorted : list ResourceDetail)
  : list ResourceDetail :=
  match sorted with
  | [] => [r]
  | r' :: rest =>
      if string_lt (Address r) (Address r') then r :: sorted
      else r' :: insertDetail r rest
  end.

(** [sortResourceDetails]. *)
Definition sortResourceDetails (resources : list ResourceDetail)
  : list ResourceDetail :=
  foldl (λ sorted r, insertDetail r sorted) [] resources.

(** One iteration of [for _, change := range changes] in
    [analyzeResourceChanges]. *)
Definition classifyChange (o : Oracle) (summary : ResourceSummary)
    (change : ResourceChange) : M ResourceSummary :=
  let resourceName := RCAddress change in
  let actions := Actions (RCChange change) in
  let* attrs := analyzeAttributeChanges o (RCChange change) in
  let detail := mkResourceDetail resourceName attrs "" in
  if containsAction actions "create" && containsAction actions "delete" then
    let* reason := determineReplaceReason o (RCChange change) in
    ret (mkResourceSummary (Create summary) (Update summary) (Delete summary)
           (Replace summary ++ [mkResourceDetail resourceName attrs reason]))
  else if containsAction actions "create" then
    ret (mkResourceSummary (Create summary ++ [detail]) (Update summary)
           (Delete summary) (Replace summary))
  else if containsAction actions "update" then
    ret (mkResourceSummary (Create summary) (Update summary ++ [detail])
           (Delete summary) (Replace summary))
  else if containsAction actions "delete" then
    let reason := determineDeleteReason (RCChange change) in
    ret (mkResourceSummary (Create summary) (Update summary)
           (Delete summary ++ [mkResourceDetail resourceName attrs reason])
           (Replace summary))
  else ret summary.

(** [analyzeResourceChanges]. *)
Definition analyzeResourceChanges (o : Oracle) (changes : list ResourceChange)
  : M ResourceSummary :=
  let* summary := foldM (classifyChange o) (mkResourceSummary [] [] [] []) changes in
  ret (mkResourceSummary
         (sortResourceDetails (Create summary))
         (sortResourceDetails (Update summary))
         (sortResourceDetails (Delete summary))
         (sortResourceDetails (Replace summary))).

(** [hasNoChanges]. *)
Definition hasNoChanges (plan : TerraformPlan) : bool :=
  bool_decide (length (ResourceChanges plan) = 0).

(** ** Renderer *)

(** [formatResourceList]. *)
Definition formatResourceList (resources : list ResourceDetail)
    (maxDisplay : nat) : string :=
  if decide (length resources = 0) then ""
  else
    let resourceNames := map Address resources in
    if decide (length resourceNames ≤ maxDisplay) then Join resourceNames ", "
    else
      let displayed := take maxDisplay resourceNames in
      let remaining := length resourceNames - maxDisplay in
      (Join displayed ", " +:+ ", ... (+" +:+ pretty remaining +:+ " more)").

(** [formatAttributeValue]. *)
Definition formatAttributeValue (val : value) : string :=
  match val with
  | VNil => "(null)"
  | VStr v => if decide (v = "") then "(empty)" else DQUOTE +:+ v +:+ DQUOTE
  | VSlice v =>
      if decide (length v = 0) then "[]"
      else "[" +:+ pretty (length v) +:+ " items]"
  | VMap v =>
      if decide (size v = 0) then "{}"
      else "{" +:+ pretty (size v) +:+ " keys}"
  | v => Sprint v
  end.

(** The loop over [resource.Changes] that [generateMarkdownComment] runs for
    an updated and for a replaced resource; [md] is the builder. *)
Definition writeAttributeChanges (md : string) (changes : list AttributeChange)
  : string :=
  foldl (λ md change,
           if IsNew change then
             md +:+ ("- **" +:+ Attribute change +:+ "**: "
                 +:+ formatAttributeValue (AttrAfter change) +:+ " *(new)*"
                 +:+ LF)
           else if IsRemoved change then
             md +:+ ("- **" +:+ Attribute change +:+ "**: "
                 +:+ formatAttributeValue (AttrBefore change) +:+ " *(removed)*"
                 +:+ LF)
           else
             md +:+ ("- **" +:+ Attribute change +:+ "**: "
                 +:+ formatAttributeValue (AttrBefore change) +:+ " â†’ "
                 +:+ formatAttributeValue (AttrAfter change) +:+ LF))
        md changes.

(** The body of [generateMarkdownComment] once the summary is computed. *)
Definition renderSummary (summary : ResourceSummary) (terraformVersion : string)
  : string :=
  let md := "" in
  let md := md +:+ ("## ðŸ“‹ Terraform Plan Summary" +:+ LF +:+ LF) in
  let totalChanges :=
    length (Create summary) + length (Update summary)
    + length (Delete summary) + length (Replace summary) in
  if decide (totalChanges = 0) then
    md +:+ ("âœ… **No changes detected** - Infrastructure is up to date!" +:+ LF
      +:+ LF)
  else
  let md := md +:+ ("**Total resources affected:** " +:+ pretty totalChanges
      +:+ LF +:+ LF) in
  let md := md +:+ ("| Action | Count | Resources |" +:+ LF) in
  let md := md +:+ ("|--------|-------|----------|" +:+ LF) in
  let md :=
    if decide (0 < length (Create summary)) then
      md +:+ ("| ðŸŸ¢ **Create** | " +:+ pretty (length (Create summary))
          +:+ " | " +:+ formatResourceList (Create summary) 3 +:+ " |" +:+ LF)
    else md in
  let md :=
    if decide (0 < length (Update summary)) then
      md +:+ ("| ðŸŸ¡ **Update** | " +:+ pretty (length (Update summary))
          +:+ " | " +:+ formatResourceList (Update summary) 3 +:+ " |" +:+ LF)
    else md in
  let md :=
    if decide (0 < length (Replace summary)) then
      md +:+ ("| ðŸ”„ **Replace** | " +:+ pretty (length (Replace summary))
          +:+ " | " +:+ formatResourceList (Replace summary) 3 +:+ " |" +:+ LF)
    else md in
  let md :=
    if decide (0 < length (Delete summary)) then
      md +:+ ("| ðŸ”´ **Delete** | " +:+ pretty (length (Delete summary))
          +:+ " | " +:+ formatResourceList (Delete summary) 3 +:+ " |" +:+ LF)
    else md in
  let md := md +:+ LF in
  let md :=
    if decide (0 < length (Create summary)) then
      let md := md +:+ ("### ðŸŸ¢ Resources to be Created" +:+ LF +:+ LF) in
      let md :=
        foldl (λ md resource, md +:+ ("- `" +:+ Address resource +:+ "`" +:+ LF))
          md (Create summary) in
      md +:+ LF
    else md in
  let md :=
    if decide (0 < length (Update summary)) then
      let md := md +:+ ("### ðŸŸ¡ Resources to be Updated" +:+ LF +:+ LF) in
      foldl (λ md resource,
               let md := md +:+ ("#### `" +:+ Address resource +:+ "`" +:+ LF
                   +:+ LF) in
               let md :=
                 if decide (0 < length (Changes resource)) then
                   let md := md +:+ ("**Attributes being modified:**" +:+ LF
                       +:+ LF) in
                   writeAttributeChanges md (Changes resource)
                 else md +:+ ("*No specific attribute changes detected*"
                     +:+ LF) in
               md +:+ LF)
        md (Update summary)
    else md in
  let md :=
    if decide (0 < length (Replace summary)) then
      let md := md +:+ ("### ðŸ”„ Resources to be Replaced" +:+ LF +:+ LF) in
      foldl (λ md resource,
               let md := md +:+ ("#### `" +:+ Address resource +:+ "`" +:+ LF
                   +:+ LF) in
               let md :=
                 if decide (ForceReason resource ≠ "") then
                   md +:+ ("**Reason for replacement:** "
                       +:+ ForceReason resource +:+ LF +:+ LF)
                 else md in
               let md :=
                 if decide (0 < length (Changes resource)) then
                   let md := md +:+ ("**Attribute changes:**" +:+ LF +:+ LF) in
                   writeAttributeChanges md (Changes resource)
                 else md in
               md +:+ LF)
        md (Replace summary)
    else md in
  let md :=
    if decide (0 < length (Delete summary)) then
      let md := md +:+ ("### ðŸ”´ Resources to be Deleted" +:+ LF +:+ LF) in
      foldl (λ md resource,
               let md := md +:+ ("#### `" +:+ Address resource +:+ "`" +:+ LF
                   +:+ LF) in
               if decide (ForceReason resource ≠ "") then
                 md +:+ ("**Resource details:** " +:+ ForceReason resource
                     +:+ LF +:+ LF)
               else md)
        md (Delete summary)
    else md in
  let md := md +:+ ("---" +:+ LF) in
  md +:+ ("*Generated from Terraform " +:+ terraformVersion +:+ " plan*"
      +:+ LF).

(** [generateMarkdownComment]. *)
Definition generateMarkdownComment (o : Oracle) (plan : TerraformPlan)
  : M string :=
  let* summary := analyzeResourceChanges o (ResourceChanges plan) in
  ret (renderSummary summary (TerraformVersion plan)).

(** The running totals of [generateMultiPlanMarkdownComment]. *)
Record Totals : Type := mkTotals {
  totalCreate : nat;
  totalUpdate : nat;
  totalDelete : nat;
  totalReplace : nat;
  allTerraformVersions : list string
}.

(** One iteration of the first loop of [generateMultiPlanMarkdownComment]. *)
Definition accumulatePlan (o : Oracle) (t : Totals) (planInfo : PlanInfo)
  : M Totals :=
  let* summary := analyzeResourceChanges o (ResourceChanges (Plan planInfo)) in
  let version := TerraformVersion (Plan planInfo) in
  let found :=
    existsb (λ v, bool_decide (v = version)) (allTerraformVersions t) in
  ret (mkTotals
         (totalCreate t + length (Create summary))
         (totalUpdate t + length (Update summary))
         (totalDelete t + length (Delete summary))
         (totalReplace t + length (Replace summary))
         (if negb found then allTerraformVersions t ++ [version]
          else allTerraformVersions t)).

(** The summary table and the detail sections of one environment, for a
    summary with changes: the second loop's body after its [continue]. *)
Definition writeEnvironmentDetails (md : string) (summary : ResourceSummary)
  : string :=
  let md := md +:+ ("| Action | Count | Resources |" +:+ LF) in
  let md := md +:+ ("|--------|-------|----------|" +:+ LF) in
  let md :=
    if decide (0 < length (Create summary)) then
      md +:+ ("| ðŸŸ¢ **Create** | " +:+ pretty (length (Create summary))
          +:+ " | " +:+ formatResourceList (Create summary) 3 +:+ " |" +:+ LF)
    else md in
  let md :=
    if decide (0 < length (Update summary)) then
      md +:+ ("| ðŸŸ¡ **Update** | " +:+ pretty (length (Update summary))
          +:+ " | " +:+ formatResourceList (Update summary) 3 +:+ " |" +:+ LF)
    else md in
  let md :=
    if decide (0 < length (Replace summary)) then
      md +:+ ("| ðŸ”„ **Replace** | " +:+ pretty (length (Replace summary))
          +:+ " | " +:+ formatResourceList (Replace summary) 3 +:+ " |" +:+ LF)
    else md in
  let md :=
    if decide (0 < length (Delete summary)) then
      md +:+ ("| ðŸ”´ **Delete** | " +:+ pretty (length (Delete summary))
          +:+ " | " +:+ formatResourceList (Delete summary) 3 +:+ " |" +:+ LF)
    else md in
  let md := md +:+ LF in
  let md :=
    if decide (0 < length (Create summary)) then
      let md := md +:+ ("**ðŸŸ¢ Resources to be Created:**" +:+ LF) in
      let md :=
        foldl (λ md resource, md +:+ ("- `" +:+ Address resource +:+ "`" +:+ LF))
          md (Create summary) in
      md +:+ LF
    else md in
  let md :=
    if decide (0 < length (Update summary)) then
      let md := md +:+ ("**ðŸŸ¡ Resources to be Updated:**" +:+ LF) in
      let md :=
        foldl (λ md resource,
                 let md := md +:+ ("- `" +:+ Address resource +:+ "`") in
                 let md :=
                   if decide (0 < length (Changes resource)) then
                     let md := md +:+ (" - ") in
                     let changeDescs :=
                       foldl (λ (changeDescs : list string) change,
                                if IsNew change then
                                  changeDescs ++ [(Attribute change
                                      +:+ " *(new)*")]
                                else if IsRemoved change then
                                  changeDescs ++ [(Attribute change
                                      +:+ " *(removed)*")]
                                else changeDescs ++ [Attribute change])
                             [] (Changes resource) in
                     md +:+ Join changeDescs ", "
                   else md in
                 md +:+ LF)
          md (Update summary) in
      md +:+ LF
    else md in
  let md :=
    if decide (0 < length (Replace summary)) then
      let md := md +:+ ("**ðŸ”„ Resources to be Replaced:**" +:+ LF) in
      let md :=
        foldl (λ md resource,
                 let md := md +:+ ("- `" +:+ Address resource +:+ "`") in
                 let md :=
                   if decide (ForceReason resource ≠ "") then
                     md +:+ (" - " +:+ ForceReason resource)
                   else md in
                 md +:+ LF)
          md (Replace summary) in
      md +:+ LF
    else md in
  let md :=
    if decide (0 < length (Delete summary)) then
      let md := md +:+ ("**ðŸ”´ Resources to be Deleted:**" +:+ LF) in
      let md :=
        foldl (λ md resource,
                 let md := md +:+ ("- `" +:+ Address resource +:+ "`") in
                 let md :=
                   if decide (ForceReason resource ≠ "") then
                     md +:+ (" - " +:+ ForceReason resource)
                   else md in
                 md +:+ LF)
          md (Delete summary) in
      md +:+ LF
    else md in
  md +:+ ("---" +:+ LF +:+ LF).

(** The body of the second loop of [generateMultiPlanMarkdownComment] once
    the summary of the plan is computed. *)
Definition writeEnvironment (md : string) (relativePath : string)
    (summary : ResourceSummary) : string :=
  let envTotalChanges :=
    length (Create summary) + length (Update summary)
    + length (Delete summary) + length (Replace summary) in
  let md := md +:+ ("#### ðŸ“ `" +:+ relativePath +:+ "`" +:+ LF +:+ LF) in
  if decide (envTotalChanges = 0) then
    md +:+ ("âœ… No changes in this environment" +:+ LF +:+ LF)
  else writeEnvironmentDetails md summary.

(** One iteration of the second loop of [generateMultiPlanMarkdownComment]. *)
Definition environmentSection (o : Oracle) (md : string) (planInfo : PlanInfo)
  : M string :=
  let* summary := analyzeResourceChanges o (ResourceChanges (Plan planInfo)) in
  ret (writeEnvironment md (RelativePath planInfo) summary).

(** [generateMultiPlanMarkdownComment]. *)
Definition generateMultiPlanMarkdownComment (o : Oracle) (plans : list PlanInfo)
  : M string :=
  let md := "" in
  let md := md +:+ ("## ðŸ“‹ Multi-Environment Terraform Plan Summary" +:+ LF
      +:+ LF) in
  let* t := foldM (accumulatePlan o) (mkTotals 0 0 0 0 []) plans in
  let totalChanges :=
    totalCreate t + totalUpdate t + totalDelete t + totalReplace t in
  if decide (totalChanges = 0) then
    ret (md +:+ ("âœ… **No changes detected across all environments** - Infrastructure is up to date!"
      +:+ LF +:+ LF))
  else
  let md := md +:+ ("**Environments processed:** " +:+ pretty (length plans)
      +:+ LF) in
  let md := md +:+ ("**Total resources affected:** " +:+ pretty totalChanges
      +:+ LF +:+ LF) in
  let md := md +:+ ("### ðŸ“Š Overall Summary" +:+ LF +:+ LF) in
  let md := md +:+ ("| Action | Total Count |" +:+ LF) in
  let md := md +:+ ("|--------|-------------|" +:+ LF) in
  let md :=
    if decide (0 < totalCreate t) then
      md +:+ ("| ðŸŸ¢ **Create** | "
        +:+ pretty (totalCreate t) +:+ " |" +:+ LF)
    else md in
  let md :=
    if decide (0 < totalUpdate t) then
      md +:+ ("| ðŸŸ¡ **Update** | "
        +:+ pretty (totalUpdate t) +:+ " |" +:+ LF)
    else md in
  let md :=
    if decide (0 < totalReplace t) then
      md +:+ ("| ðŸ”„ **Replace** | "
        +:+ pretty (totalReplace t) +:+ " |" +:+ LF)
    else md in
  let md :=
    if decide (0 < totalDelete t) then
      md +:+ ("| ðŸ”´ **Delete** | "
        +:+ pretty (totalDelete t) +:+ " |" +:+ LF)
    else md in
  let md := md +:+ LF in
  let md := md +:+ ("### ðŸ—ï¸ Environment Details" +:+ LF +:+ LF) in
  let* md := foldM (environmentSection o) md plans in
  if decide (length (allTerraformVersions t) = 1) then
    ret (md +:+ ("*Generated from Terraform "
        +:+ default "" (head (allTerraformVersions t)) +:+ " plans*" +:+ LF))
  else
    ret (md +:+ ("*Generated from Terraform plans (versions: "
        +:+ Join (allTerraformVersions t) ", " +:+ ")*" +:+ LF)).

End Plan.

(** ** Vocabulary of the statements *)

(** The four slices of a [ResourceSummary]. *)
Inductive Bucket : Type := BCreate | BUpdate | BDelete | BReplace.

#[global] Instance Bucket_eq_dec : EqDecision Bucket.
Proof. solve_decision. Defined.

Definition bucketOf {float64 : Type} (s : @ResourceSummary float64) (b : Bucket)
  : list ResourceDetail :=
  match b with
  | BCreate => Create s
  | BUpdate => Update s
  | BDelete => Delete s
  | BReplace => Replace s
  end.

(** The bucket that the specification assigns to a set of actions, written
    with membership only, so that it cannot depend on the order of the
    actions. *)
Definition spec_bucket (actions : list string) : option Bucket :=
  if decide ("create" ∈ actions ∧ "delete" ∈ actions) then Some BReplace
  else if decide ("create" ∈ actions) then Some BCreate
  else if decide ("update" ∈ actions) then Some BUpdate
  else if decide ("delete" ∈ actions) then Some BDelete
  else None.

(** An attribute change list carries no key of the skip set. *)
Definition clean_changes {float64 : Type} (cs : list (@AttributeChange float64))
  : Prop :=
  Forall (λ c, Attribute c ∉ skipAttributes) cs.

Definition clean_summary {float64 : Type} (s : @ResourceSummary float64) : Prop :=
  ∀ b, Forall (λ d, clean_changes (Changes d)) (bucketOf s b).

Section Vocabulary.

Context {float64 : Type} (fmt_float64 : float64 → string).

Implicit Types (o : Oracle) (c : @AttributeChange float64).
Implicit Types (d : @ResourceDetail float64).

(** The sentence of [determineReplaceReason] that names an attribute. *)
Definition reasonOf c : string :=
  "Attribute '" +:+ Attribute c +:+ "' changed from '"
  +:+ Sprint fmt_float64 (AttrBefore c) +:+ "' to '"
  +:+ Sprint fmt_float64 (AttrAfter c) +:+ "' (forces replacement)".

(** The replacement reason as the specification words it: the first key of
    the priority list, in the order of that list, that the diff contains
    decides the sentence. *)
Definition spec_replace_reason (changes : list (@AttributeChange float64))
  : string :=
  match list_find (λ key, key ∈ Attribute <$> changes) forceReplaceAttrs with
  | Some (_, key) =>
      match list_find (λ c, Attribute c = key) changes with
      | Some (_, c) => reasonOf c
      | None => ""
      end
  | None =>
      match changes with
      | [] => "Resource configuration requires replacement"
      | _ :: _ => "Multiple attribute changes require replacement"
      end
  end.

(** Order of two entries by address. *)
Definition addr_le d1 d2 : Prop := String.le (Address d1) (Address d2).

(** The entry that the classifier builds for a resource change placed in
    bucket [b]: the address of the change, a diff of the change, and the
    reason that goes with the bucket. *)
Definition detail_for o (b : Bucket) (rc : @ResourceChange float64) d : Prop :=
  Address d = RCAddress rc
  ∧ (∃ k, Changes d = run (analyzeAttributeChanges fmt_float64 o (RCChange rc)) k)
  ∧ match b with
    | BReplace =>
        ∃ k, ForceReason d
             = run (determineReplaceReason fmt_float64 o (RCChange rc)) k
    | BDelete => ForceReason d = determineDeleteReason fmt_float64 (RCChange rc)
    | BCreate | BUpdate => ForceReason d = ""
    end.

Definition placed (b : Bucket) (rc : @ResourceChange float64) : Prop :=
  spec_bucket (Actions (RCChange rc)) = Some b.

#[global] Instance placed_dec b rc : Decision (placed b rc).
Proof. unfold placed. apply _. Defined.

End Vocabulary.

(** ** Sample inputs *)

Module Sample.

(** Numbers of the samples are integers printed in decimal. *)
Definition fmt : Z → string := pretty.

(** Two iteration orders: the order of [elements], and its reverse. *)
Definition forward : Oracle := λ _ ks, ks.
Definition backward : Oracle := λ _ ks, reverse ks.

Definition db_before : gmap string (@value Z) :=
  {[ "name" := VStr "old"; "engine" := VStr "pg"; "id" := VStr "i-1";
     "port" := VNum 5432%Z ]}.

Definition db_after : gmap string (@value Z) :=
  {[ "name" := VStr "new"; "engine" := VStr "my"; "id" := VStr "i-2";
     "zones" := VSlice [VStr "a"; VStr "b"] ]}.

Definition db_change (actions : list string) : Change :=
  mkChange actions (VMap db_before) (VMap db_after) VNil.

Definition resource (address : string) (c : @Change Z) : ResourceChange :=
  mkResourceChange address "" "managed" "aws_db_instance" "x" "aws" c.

Definition plan : TerraformPlan :=
  mkTerraformPlan "1.2" "1.9.8"
    [ resource "aws_db_instance.b" (db_change ["delete"; "create"]);
      resource "aws_db_instance.c" (db_change ["update"]);
      resource "aws_db_instance.d" (mkChange ["delete"] (VMap db_before) VNil VNil);
      resource "aws_db_instance.a" (db_change ["update"]);
      resource "aws_db_instance.e" (mkChange ["create"] VNil (VMap db_after) VNil);
      resource "data.x" (mkChange ["read"] VNil VNil VNil) ].

Definition empty_plan : @TerraformPlan Z := mkTerraformPlan "1.2" "1.9.8" [].

(** A resource whose two states differ at [id] only. *)
Definition id_only_before : gmap string (@value Z) :=
  <["id" := VStr "i-1"]> {[ "name" := VStr "db"; "engine" := VStr "pg" ]}.

Definition id_only_after : gmap string (@value Z) :=
  <["id" := VStr "i-2"]> {[ "name" := VStr "db"; "engine" := VStr "pg" ]}.

Definition id_only_change : Change :=
  mkChange ["create"; "delete"] (VMap id_only_before) (VMap id_only_after) VNil.

(** A plan with one updated resource and one changed attribute. *)
Definition rename_plan : TerraformPlan :=
  mkTerraformPlan "1.2" "1.9.8"
    [ resource "aws_db_instance.a"
        (mkChange ["update"] (VMap {[ "name" := VStr "old" ]})
           (VMap {[ "name" := VStr "new" ]}) VNil) ].

End Sample.

(** ** Directory mode *)

Section Directory.

Context {float64 : Type}.

(** What the file system answers to one call of the [filepath.Walk] callback
    of [findAndReadPlanFiles]: the error handed to the callback, the two
    fields of [info] that are read, and the results of the three calls made
    on [path] ([None] is a returned error). *)
Record WalkEntry : Type := mkWalkEntry {
  walkErr : option string;
  infoIsDir : bool;
  infoName : string;
  pathDir : string;
  pathRel : option string;
  pathPlan : option (@TerraformPlan float64)
}.

(** The walk of [findAndReadPlanFiles]: the callback on each entry in turn,
    [plans] being the slice built so far; the walk stops at the first error
    that the callback returns. *)
Fixpoint walkPlanFiles (entries : list WalkEntry) (plans : list PlanInfo)
  : string + list (@PlanInfo float64) :=
  match entries with
  | [] => inr plans
  | entry :: rest =>
      match walkErr entry with
      | Some err => inl err
      | None =>
          if negb (infoIsDir entry) && bool_decide (infoName entry = "tfplan.json")
          then
            match pathPlan entry with
            | None => walkPlanFiles rest plans
            | Some plan =>
                if hasNoChanges plan then walkPlanFiles rest plans
                else
                  let relPath :=
                    match pathRel entry with
                    | Some relPath => relPath
                    | None => pathDir entry
                    end in
                  let relPath :=
                    if bool_decide (relPath = ".") then "root" else relPath in
                  walkPlanFiles rest (plans ++ [mkPlanInfo plan relPath])
            end
          else walkPlanFiles rest plans
      end
  end.

(** [sort.Slice] with [less = plans[i].RelativePath < plans[j].RelativePath],
    as the insertion sort of the library. *)
Fixpoint insertPlan (p : @PlanInfo float64) (sorted : list PlanInfo)
  : list PlanInfo :=
  match sorted with
  | [] => [p]
  | p' :: rest =>
      if string_lt (RelativePath p) (RelativePath p') then p :: sorted
      else p' :: insertPlan p rest
  end.

Definition sortPlans (plans : list (@PlanInfo float64)) : list PlanInfo :=
  foldl (λ sorted p, insertPlan p sorted) [] plans.

(** [findAndReadPlanFiles]: [inl] is the returned error. *)
Definition findAndReadPlanFiles (entries : list WalkEntry)
  : string + list (@PlanInfo float64) :=
  match walkPlanFiles entries [] with
  | inl err => inl ("error walking directory: " +:+ err)
  | inr plans => inr (sortPlans plans)
  end.

End Directory.

(** ** More vocabulary *)

Definition starts_with (prefix s : string) : Prop := ∃ rest, s = prefix +:+ rest.

Definition ends_with (suffix s : string) : Prop := ∃ front, s = front +:+ suffix.

(** The change with its two states exchanged, and the record read in the
    other direction. *)
Definition swapChange {float64 : Type} (change : @Change float64) : Change :=
  mkChange (Actions change) (After change) (Before change) (AfterUnknown change).

Definition swapRecord {float64 : Type} (c : @AttributeChange float64)
  : AttributeChange :=
  mkAttributeChange (Attribute c) (AttrAfter c) (AttrBefore c)
    (IsRemoved c) (IsNew c).

(** A resource change that lands in some bucket. *)
Definition classified {float64 : Type} (rc : @ResourceChange float64) : Prop :=
  spec_bucket (Actions (RCChange rc)) ≠ None.

(** Two resource changes with the same address, actions and two states. *)
Definition same_inputs {float64 : Type} (rc rc' : @ResourceChange float64) : Prop :=
  RCAddress rc = RCAddress rc'
  ∧ Actions (RCChange rc) = Actions (RCChange rc')
  ∧ Before (RCChange rc) = Before (RCChange rc')
  ∧ After (RCChange rc) = After (RCChange rc').

(** The grand totals after the first loop of
    [generateMultiPlanMarkdownComment]. *)
Definition grandTotals {float64 : Type} (fmt_float64 : float64 → string)
    (o : Oracle) (plans : list (@PlanInfo float64)) : M Totals :=
  foldM (accumulatePlan fmt_float64 o) (mkTotals 0 0 0 0 []) plans.

(** A text with a given beginning, or a given end, or both. *)
Definition framed (prefix suffix s : string) : Prop :=
  ∃ body, s = prefix +:+ body +:+ suffix.

(** The distinct elements of a list in the order of their first
    occurrence. *)
Definition first_seen (l : list string) : list string :=
  reverse (remove_dups (reverse l)).

(** The body of the loop of [generateMultiPlanMarkdownComment] that collects
    the versions. *)
Definition versionStep (acc : list string) (v : string) : list string :=
  if negb (existsb (λ v', bool_decide (v' = v)) acc) then acc ++ [v] else acc.

(** The resource changes of all plans that the actions place in a bucket,
    and those placed in any bucket. *)
Definition placed_total {float64 : Type} (b : Bucket)
    (plans : list (@PlanInfo float64)) : nat :=
  sum_list ((λ p, length (filter (placed b) (ResourceChanges (Plan p)))) <$> plans).

Definition classified_total {float64 : Type} (plans : list (@PlanInfo float64))
  : nat :=
  sum_list ((λ p, length (filter classified (ResourceChanges (Plan p)))) <$> plans).

(** Order of two plans by relative path. *)
Definition path_le {float64 : Type} (p1 p2 : @PlanInfo float64) : Prop :=
  String.le (RelativePath p1) (RelativePath p2).

Module Sample2.

Import Sample.

Definition noop_plan : @TerraformPlan Z :=
  mkTerraformPlan "1.2" "1.9.8"
    [ resource "aws_db_instance.a" (db_change ["no-op"]);
      resource "data.x" (mkChange ["read"] VNil VNil VNil) ].

Definition entries : list (@WalkEntry Z) :=
  [ mkWalkEntry None true "plans" "." (Some ".") None;
    mkWalkEntry None false "tfplan.json" "plans/prod" (Some "prod") (Some plan);
    mkWalkEntry None false "notes.md" "plans/prod" (Some "prod") None;
    mkWalkEntry None false "tfplan.json" "plans/broken" (Some "broken") None;
    mkWalkEntry None false "tfplan.json" "plans/empty" (Some "empty") (Some empty_plan);
    mkWalkEntry None false "tfplan.json" "plans" (Some ".") (Some rename_plan);
    mkWalkEntry None false "tfplan.json" "plans/dev" None (Some noop_plan) ].

Definition details (addresses : list string) : list (@ResourceDetail Z) :=
  (λ a, mkResourceDetail a [] "") <$> addresses.

(** The sample plan with every field that the analysis does not read
    replaced. *)
Definition retag (rc : @ResourceChange Z) : ResourceChange :=
  mkResourceChange (RCAddress rc) "module.other" "data" "other_type" "other"
    "other_provider"
    (mkChange (Actions (RCChange rc)) (Before (RCChange rc))
       (After (RCChange rc)) (VBool true)).

Definition retagged_plan : @TerraformPlan Z :=
  mkTerraformPlan "9.9" "1.9.8" (retag <$> ResourceChanges plan).

Definition environments : list (@PlanInfo Z) :=
  [ mkPlanInfo plan "prod"; mkPlanInfo rename_plan "root" ].

(** What [findAndReadPlanFiles] returns on [entries]. *)
Definition found : list (@PlanInfo Z) :=
  [ mkPlanInfo noop_plan "plans/dev"; mkPlanInfo plan "prod";
    mkPlanInfo rename_plan "root" ].

(** A replacement in which only [name] differs. *)
Definition name_before : gmap string (@value Z) :=
  {[ "name" := VStr "old"; "engine" := VStr "pg"; "port" := VNum 5432%Z ]}.

Definition name_after : gmap string (@value Z) :=
  {[ "name" := VStr "new"; "engine" := VStr "pg"; "port" := VNum 5433%Z ]}.

Definition name_change : Change :=
  mkChange ["delete"; "create"] (VMap name_before) (VMap name_after) VNil.

(** A plan with one updated resource and two changed attributes, and the
    report of that plan around the lines of its attribute changes. *)
Definition resize_plan : @TerraformPlan Z :=
  mkTerraformPlan "1.2" "1.9.8"
    [ mkResourceChange "aws_instance.web" "" "managed" "aws_instance" "web" "aws"
        (mkChange ["update"]
           (VMap {[ "cpu" := VNum 1%Z; "memory" := VNum 512%Z ]})
           (VMap {[ "cpu" := VNum 2%Z; "memory" := VNum 1024%Z ]}) VNil) ].

Definition resize_report (attribute_lines : string) : string :=
  ("## ðŸ“‹ Terraform Plan Summary" +:+ LF +:+ LF)
  +:+ ("**Total resources affected:** " +:+ "1" +:+ LF +:+ LF)
  +:+ ("| Action | Count | Resources |" +:+ LF)
  +:+ ("|--------|-------|----------|" +:+ LF)
  +:+ ("| ðŸŸ¡ **Update** | " +:+ "1" +:+ " | " +:+ "aws_instance.web"
       +:+ " |" +:+ LF)
  +:+ LF
  +:+ ("### ðŸŸ¡ Resources to be Updated" +:+ LF +:+ LF)
  +:+ ("#### `" +:+ "aws_instance.web" +:+ "`" +:+ LF +:+ LF)
  +:+ ("**Attributes being modified:**" +:+ LF +:+ LF)
  +:+ attribute_lines
  +:+ LF
  +:+ ("---" +:+ LF)
  +:+ ("*Generated from Terraform " +:+ "1.9.8" +:+ " plan*" +:+ LF).

Definition cpu_line : string :=
  "- **" +:+ "cpu" +:+ "**: " +:+ "1" +:+ " â†’ " +:+ "2" +:+ LF.

Definition memory_line : string :=
  "- **" +:+ "memory" +:+ "**: " +:+ "512" +:+ " â†’ " +:+ "1024" +:+ LF.

End Sample2.

(** * Properties *)

(** ** The state monad *)

Lemma run_ret {A} (a : A) n : run (ret a) n = a.
Proof. reflexivity. Qed.

Lemma run_bind {A B} (m : M A) (k : A → M B) n :
  run (bind m k) n = run (k (m n).1) (m n).2.
Proof. unfold run, bind. by destruct (m n). Qed.

Lemma bind_unfold {A B} (m : M A) (k : A → M B) n :
  bind m k n = k (m n).1 (m n).2.
Proof. unfold bind. by destruct (m n). Qed.

Lemma fair_NoDup (o : Oracle) n (keys : gset string) :
  fair o → NoDup (o n (elements keys)).
Proof. intros Ho. rewrite (Ho n). apply NoDup_elements. Qed.

Lemma fair_elem_of (o : Oracle) n (keys : gset string) k :
  fair o → k ∈ o n (elements keys) ↔ k ∈ keys.
Proof. intros Ho. rewrite (Ho n). apply elem_of_elements. Qed.

Lemma forward_fair : fair Sample.forward.
Proof. by intros n ks. Qed.

Lemma backward_fair : fair Sample.backward.
Proof. intros n ks. apply reverse_Permutation. Qed.

(** ** Skip set and actions *)

Lemma shouldSkipAttribute_true key :
  shouldSkipAttribute key = true ↔ key ∈ skipAttributes.
Proof.
  unfold shouldSkipAttribute, skipAttributes.
  rewrite !elem_of_cons, elem_of_nil.
  repeat case_bool_decide; naive_solver.
Qed.

Lemma shouldSkipAttribute_false key :
  shouldSkipAttribute key = false ↔ key ∉ skipAttributes.
Proof.
  rewrite <- shouldSkipAttribute_true. by destruct (shouldSkipAttribute key).
Qed.

Lemma containsAction_true actions action :
  containsAction actions action = true ↔ action ∈ actions.
Proof.
  induction actions as [|a rest IH]; simpl.
  - rewrite elem_of_nil. naive_solver.
  - rewrite elem_of_cons. case_bool_decide; naive_solver.
Qed.

Lemma containsAction_false actions action :
  containsAction actions action = false ↔ action ∉ actions.
Proof.
  rewrite <- containsAction_true. by destruct (containsAction actions action).
Qed.

Section Properties.

Context {float64 : Type} (fmt_float64 : float64 → string).

Implicit Types (o : Oracle) (n : nat) (key : string).
Implicit Types (beforeMap afterMap : gmap string (@value float64)).
Implicit Types (change : @Change float64) (c : @AttributeChange float64).
Implicit Types (d : @ResourceDetail float64) (s : @ResourceSummary float64).

(** ** Attribute differ *)

Lemma deepEqual_refl (v : @value float64) : deepEqual fmt_float64 v v = true.
Proof. unfold deepEqual. by rewrite bool_decide_eq_true. Qed.

(** The records that one key contributes. *)
Lemma diffKey_app beforeMap afterMap changes key :
  diffKey fmt_float64 beforeMap afterMap changes key
  = changes ++ diffKey fmt_float64 beforeMap afterMap [] key.
Proof.
  unfold diffKey.
  repeat (case_match; simpl; rewrite ?app_nil_r; try done).
Qed.

Lemma diffKey_loop beforeMap afterMap changes keys :
  foldl (diffKey fmt_float64 beforeMap afterMap) changes keys
  = changes ++ (keys ≫= diffKey fmt_float64 beforeMap afterMap []).
Proof.
  revert changes. induction keys as [|key keys IH]; intros changes; simpl.
  - by rewrite app_nil_r.
  - rewrite IH, diffKey_app. by rewrite <- app_assoc.
Qed.

Lemma diffKey_attribute beforeMap afterMap key c :
  c ∈ diffKey fmt_float64 beforeMap afterMap [] key →
  Attribute c = key ∧ shouldSkipAttribute key = false
  ∧ ¬ (IsNew c = true ∧ IsRemoved c = true).
Proof.
  unfold diffKey.
  repeat (case_match; simpl); rewrite ?elem_of_nil, ?list_elem_of_singleton;
    try done; intros ->; simpl; naive_solver.
Qed.

Lemma filter_all {A} (P : A → Prop) `{∀ x, Decision (P x)} (l : list A) :
  Forall P l → filter P l = l.
Proof.
  induction 1 as [|x l Hx _ IH]; [done|].
  by rewrite filter_cons_True, IH.
Qed.

Lemma filter_none {A} (P : A → Prop) `{∀ x, Decision (P x)} (l : list A) :
  Forall (λ x, ¬ P x) l → filter P l = [].
Proof.
  induction 1 as [|x l Hx _ IH]; [done|].
  by rewrite filter_cons_False.
Qed.

Lemma diffKey_filter_other beforeMap afterMap keys key :
  key ∉ keys →
  filter (λ c, Attribute c = key)
    (keys ≫= diffKey fmt_float64 beforeMap afterMap []) = [].
Proof.
  intros Hnot. apply filter_none, Forall_forall. intros c Hc.
  apply list_elem_of_bind in Hc as (k & Hc & Hk).
  apply diffKey_attribute in Hc as [Hattr _].
  intros Heq. apply Hnot. by rewrite <- Heq, Hattr.
Qed.

Lemma diffKey_filter_same beforeMap afterMap key :
  filter (λ c, Attribute c = key)
    (diffKey fmt_float64 beforeMap afterMap [] key)
  = diffKey fmt_float64 beforeMap afterMap [] key.
Proof.
  apply filter_all, Forall_forall. intros c Hc.
  by apply diffKey_attribute in Hc as [? _].
Qed.

Lemma diffKey_filter beforeMap afterMap keys key :
  NoDup keys → key ∈ keys →
  filter (λ c, Attribute c = key)
    (keys ≫= diffKey fmt_float64 beforeMap afterMap [])
  = diffKey fmt_float64 beforeMap afterMap [] key.
Proof.
  induction 1 as [|k keys Hk Hnd IH]; intros Hin.
  - by apply elem_of_nil in Hin.
  - rewrite bind_cons, filter_app.
    apply elem_of_cons in Hin as [->|Hin].
    + rewrite diffKey_filter_same, diffKey_filter_other by done.
      by rewrite app_nil_r.
    + rewrite IH by done.
      rewrite (filter_none _ (diffKey _ _ _ _ k)); [done|].
      apply Forall_forall. intros c Hc.
      apply diffKey_attribute in Hc as [Hattr _].
      intros Heq. apply Hk. by rewrite <- Hattr, Heq.
Qed.

(** What [analyzeAttributeChanges] returns, with the key order made explicit. *)
Lemma analyzeAttributeChanges_maps o n change beforeMap afterMap :
  Before change = VMap beforeMap → After change = VMap afterMap →
  analyzeAttributeChanges fmt_float64 o change n
  = ((o n (elements (dom beforeMap ∪ dom afterMap))
        ≫= diffKey fmt_float64 beforeMap afterMap []), S n).
Proof.
  intros Hb Ha. unfold analyzeAttributeChanges. rewrite Hb, Ha.
  unfold bind, rangeKeys, ret. by rewrite diffKey_loop.
Qed.

Lemma analyzeAttributeChanges_elem_of o n change c :
  c ∈ run (analyzeAttributeChanges fmt_float64 o change) n →
  (Attribute c ∉ skipAttributes) ∧ ¬ (IsNew c = true ∧ IsRemoved c = true).
Proof.
  unfold run, analyzeAttributeChanges.
  destruct (Before change) as [| | | | |beforeMap] eqn:Hb;
    try (simpl; intros []%elem_of_nil).
  destruct (After change) as [| | | | |afterMap] eqn:Ha;
    try (simpl; intros []%elem_of_nil).
  unfold bind, rangeKeys, ret. simpl. rewrite diffKey_loop. simpl.
  intros (k & Hc & _)%list_elem_of_bind.
  apply diffKey_attribute in Hc as (-> & Hskip & Hflags).
  by apply shouldSkipAttribute_false in Hskip.
Qed.

(** C3. The attribute differ returns the empty list unless both [Before] and
    [After] are mappings. When both are, and every [range] visits each key
    once, the records it returns for a key outside the skip set are: one
    record with [IsNew] and a nil [AttrBefore] for a key of [After] only; one
    record with [IsRemoved] and a nil [AttrAfter] for a key of [Before] only;
    for a key of both, one plain record when the [%v] renderings of the two
    values differ and none when they are equal. No record has both flags. *)
Theorem analyzeAttributeChanges_spec o n change (Hfair : fair o) :
  let changes := run (analyzeAttributeChanges fmt_float64 o change) n in
  match Before change, After change with
  | VMap beforeMap, VMap afterMap =>
      ∀ key, key ∉ skipAttributes →
        filter (λ c, Attribute c = key) changes =
          match beforeMap !! key, afterMap !! key with
          | None, Some afterVal =>
              [mkAttributeChange key VNil afterVal true false]
          | Some beforeVal, None =>
              [mkAttributeChange key beforeVal VNil false true]
          | Some beforeVal, Some afterVal =>
              if decide (Sprint fmt_float64 beforeVal
                         = Sprint fmt_float64 afterVal)
              then []
              else [mkAttributeChange key beforeVal afterVal false false]
          | None, None => []
          end
  | _, _ => changes = []
  end
  ∧ ∀ c, c ∈ changes → ¬ (IsNew c = true ∧ IsRemoved c = true).
Proof.
  intros changes. split.
  2: { intros c Hc. by apply analyzeAttributeChanges_elem_of in Hc as [_ ?]. }
  subst changes.
  destruct (Before change) as [| | | | |beforeMap] eqn:Hb;
    try (unfold run, analyzeAttributeChanges; by rewrite Hb).
  destruct (After change) as [| | | | |afterMap] eqn:Ha;
    try (unfold run, analyzeAttributeChanges; by rewrite Hb, Ha).
  intros key Hskip. apply shouldSkipAttribute_false in Hskip.
  unfold run. rewrite (analyzeAttributeChanges_maps _ _ _ _ _ Hb Ha). simpl.
  destruct (decide (key ∈ dom beforeMap ∪ dom afterMap)) as [Hin|Hout].
  - rewrite diffKey_filter
      by (by apply fair_NoDup || by apply fair_elem_of).
    unfold diffKey. rewrite Hskip. unfold deepEqual.
    destruct (beforeMap !! key), (afterMap !! key); try done.
    by case_bool_decide; case_decide.
  - rewrite diffKey_filter_other by (by rewrite fair_elem_of).
    apply not_elem_of_union in Hout as [Hb' Ha'].
    apply not_elem_of_dom in Hb', Ha'. by rewrite Hb', Ha'.
Qed.

(** ** Reasons *)

Lemma forceAttrLoop_spec c attrs :
  forceAttrLoop fmt_float64 c attrs
  = if decide (Attribute c ∈ attrs) then Some (reasonOf fmt_float64 c) else None.
Proof.
  induction attrs as [|a attrs IH]; simpl.
  - destruct (decide (Attribute c ∈ [])) as [H|H];
      [by apply elem_of_nil in H|done].
  - case_bool_decide as Ha.
    + rewrite decide_True; [done|]. rewrite Ha. apply elem_of_cons; by left.
    + rewrite IH.
      destruct (decide (Attribute c ∈ attrs)) as [H|H],
        (decide (Attribute c ∈ a :: attrs)) as [H'|H']; try done.
      * exfalso. apply H'. apply elem_of_cons; by right.
      * exfalso. apply elem_of_cons in H' as [?|?]; done.
Qed.

Lemma forceReplaceLoop_spec (changes : list (@AttributeChange float64)) :
  forceReplaceLoop fmt_float64 changes
  = (λ p, reasonOf fmt_float64 p.2)
      <$> list_find (λ c, Attribute c ∈ forceReplaceAttrs) changes.
Proof.
  induction changes as [|c changes IH]; [done|].
  change (forceReplaceLoop fmt_float64 (c :: changes))
    with (match forceAttrLoop fmt_float64 c forceReplaceAttrs with
          | Some reason => Some reason
          | None => forceReplaceLoop fmt_float64 changes
          end).
  rewrite forceAttrLoop_spec. cbn [list_find].
  destruct (decide (Attribute c ∈ forceReplaceAttrs)); [done|].
  rewrite IH. by destruct (list_find _ changes) as [[]|].
Qed.

Lemma determineReplaceReason_unfold o n change :
  run (determineReplaceReason fmt_float64 o change) n
  = let changes := run (analyzeAttributeChanges fmt_float64 o change) n in
    match forceReplaceLoop fmt_float64 changes with
    | Some reason => reason
    | None =>
        if decide (0 < length changes)
        then "Multiple attribute changes require replacement"
        else "Resource configuration requires replacement"
    end.
Proof. unfold determineReplaceReason. by rewrite run_bind. Qed.

(** C2, as the code has it. The replacement reason is computed from a fresh
    diff of the change. It names the first record of that diff, in the order
    of the diff, whose key is one of name, family, engine, vpc_id and
    availability_zone, with the [%v] renderings of its two values; it is
    the "Multiple attribute changes" sentence when the diff is not empty and
    has no such key, and the "Resource configuration" sentence when the
    diff is empty. *)
Theorem determineReplaceReason_spec o n change :
  let changes := run (analyzeAttributeChanges fmt_float64 o change) n in
  let reason := run (determineReplaceReason fmt_float64 o change) n in
  match list_find (λ c, Attribute c ∈ forceReplaceAttrs) changes with
  | Some (_, c) =>
      reason =
        "Attribute '" +:+ Attribute c +:+ "' changed from '"
        +:+ Sprint fmt_float64 (AttrBefore c) +:+ "' to '"
        +:+ Sprint fmt_float64 (AttrAfter c) +:+ "' (forces replacement)"
  | None =>
      match changes with
      | [] => reason = "Resource configuration requires replacement"
      | _ :: _ => reason = "Multiple attribute changes require replacement"
      end
  end.
Proof.
  intros changes reason. subst reason.
  rewrite determineReplaceReason_unfold. fold changes. simpl.
  rewrite forceReplaceLoop_spec.
  destruct (list_find _ changes) as [[i c]|]; [done|].
  cbn [fmap option_fmap option_map]. destruct changes as [|c changes']; [done|].
  destruct (decide (0 < length (c :: changes'))) as [_|Hlen]; [done|].
  exfalso. apply Hlen. simpl. lia.
Qed.

(** C10. When [Before] and [After] are mappings that agree at every key
    outside the skip set, the diff is empty, no listed attribute is found,
    and the replacement reason is the "Resource configuration" sentence.
    The list of attributes that can be named in a reason and the skip set
    have no key in common. *)
Theorem determineReplaceReason_skip_only o n change beforeMap afterMap
    (Hbefore : Before change = VMap beforeMap)
    (Hafter : After change = VMap afterMap)
    (Hsame : ∀ key, key ∉ skipAttributes → beforeMap !! key = afterMap !! key) :
  run (analyzeAttributeChanges fmt_float64 o change) n = []
  ∧ forceReplaceLoop fmt_float64
      (run (analyzeAttributeChanges fmt_float64 o change) n) = None
  ∧ run (determineReplaceReason fmt_float64 o change) n
    = "Resource configuration requires replacement"
  ∧ ∀ key, key ∈ forceReplaceAttrs → key ∉ skipAttributes.
Proof.
  assert (run (analyzeAttributeChanges fmt_float64 o change) n = []) as Hnil.
  { unfold run. rewrite (analyzeAttributeChanges_maps _ _ _ _ _ Hbefore Hafter).
    simpl. generalize (o n (elements (dom beforeMap ∪ dom afterMap))).
    intros keys. induction keys as [|key keys IH]; [done|].
    rewrite bind_cons, IH, app_nil_r. unfold diffKey.
    destruct (shouldSkipAttribute key) eqn:Hskip; [done|].
    apply shouldSkipAttribute_false in Hskip. rewrite (Hsame key Hskip).
    destruct (afterMap !! key); [|done]. by rewrite deepEqual_refl. }
  repeat split.
  - done.
  - by rewrite Hnil.
  - rewrite determineReplaceReason_unfold, Hnil. done.
  - unfold forceReplaceAttrs, skipAttributes. intros key.
    rewrite !elem_of_cons, !elem_of_nil. naive_solver.
Qed.

Lemma identifiers_loop beforeMap (attrs : list string) (identifiers : list string) :
  foldl (λ (identifiers : list string) (attr : string),
           match beforeMap !! attr with
           | Some VNil => identifiers
           | Some val => identifiers ++ [attr +:+ ": "
               +:+ Sprint fmt_float64 val]
           | None => identifiers
           end) identifiers attrs
  = identifiers ++
    omap (λ attr,
            match beforeMap !! attr with
            | Some VNil | None => None
            | Some val => Some (attr +:+ ": " +:+ Sprint fmt_float64 val)
            end) attrs.
Proof.
  revert identifiers. induction attrs as [|attr attrs IH]; intros identifiers.
  - by rewrite app_nil_r.
  - cbn [foldl omap list_omap]. rewrite IH.
    destruct (beforeMap !! attr) as [[]|]; by rewrite <- ?app_assoc.
Qed.

(** C5. The deletion reason is "Resource marked for deletion" when [Before]
    is not a mapping. When it is, the keys name, id, family and engine are
    looked up in that order; each key that is present with a value other
    than nil gives "<key>: <value>"; the reason is "Resource with " followed
    by these, joined by ", ", when there is at least one, and "Resource
    marked for deletion" otherwise. The reason is never the empty string. *)
Theorem determineDeleteReason_spec change :
  match Before change with
  | VMap beforeMap =>
      let identifiers :=
        omap (λ attr,
                match beforeMap !! attr with
                | Some VNil | None => None
                | Some val => Some (attr +:+ ": " +:+ Sprint fmt_float64 val)
                end) ["name"; "id"; "family"; "engine"] in
      determineDeleteReason fmt_float64 change =
        match identifiers with
        | [] => "Resource marked for deletion"
        | _ :: _ => "Resource with " +:+ Join identifiers ", "
        end
  | _ => determineDeleteReason fmt_float64 change = "Resource marked for deletion"
  end
  ∧ determineDeleteReason fmt_float64 change ≠ "".
Proof.
  unfold determineDeleteReason, keyAttrs.
  destruct (Before change) as [| | | | |beforeMap]; try done.
  rewrite identifiers_loop, app_nil_l.
  destruct (omap _ _) as [|i is_]; [done|].
  destruct (decide (0 < length (i :: is_))) as [_|Hlen]; [done|].
  exfalso. apply Hlen. simpl. lia.
Qed.

(** ** Value formatting *)

(** C6. [formatAttributeValue] on each shape of value. *)
Theorem formatAttributeValue_spec :
  formatAttributeValue fmt_float64 VNil = "(null)"
  ∧ formatAttributeValue fmt_float64 (VStr "") = "(empty)"
  ∧ (∀ v, v ≠ "" →
       formatAttributeValue fmt_float64 (VStr v) = DQUOTE +:+ v +:+ DQUOTE)
  ∧ formatAttributeValue fmt_float64 (VSlice []) = "[]"
  ∧ (∀ l, 0 < length l →
       formatAttributeValue fmt_float64 (VSlice l)
       = "[" +:+ pretty (length l) +:+ " items]")
  ∧ formatAttributeValue fmt_float64 (VMap ∅) = "{}"
  ∧ (∀ m, 0 < size m →
       formatAttributeValue fmt_float64 (VMap m)
       = "{" +:+ pretty (size m) +:+ " keys}")
  ∧ (∀ b, formatAttributeValue fmt_float64 (VBool b)
          = Sprint fmt_float64 (VBool b))
  ∧ (∀ f, formatAttributeValue fmt_float64 (VNum f)
          = Sprint fmt_float64 (VNum f)).
Proof.
  repeat split; try done.
  - intros v Hv. unfold formatAttributeValue. by rewrite decide_False.
  - intros l Hl. unfold formatAttributeValue. rewrite decide_False; [done|lia].
  - intros m Hm. unfold formatAttributeValue. rewrite decide_False; [done|lia].
Qed.

(** ** Sorting the buckets *)

Lemma string_lt_le (a b : string) : string_lt a b = true → String.le a b.
Proof.
  unfold string_lt, String.le, String.ltb, String.leb.
  by destruct (String.compare a b).
Qed.

Lemma string_lt_ge (a b : string) : string_lt a b = false → String.le b a.
Proof.
  unfold string_lt, String.le, String.ltb, String.leb.
  rewrite (String.compare_antisym a b).
  by destruct (String.compare b a).
Qed.

Lemma insertDetail_perm d (l : list (@ResourceDetail float64)) :
  insertDetail d l ≡ₚ d :: l.
Proof.
  induction l as [|d' l IH]; simpl; [done|].
  destruct (string_lt _ _); [done|].
  rewrite IH. apply Permutation_swap.
Qed.

Lemma sortResourceDetails_loop_perm (l acc : list (@ResourceDetail float64)) :
  foldl (λ sorted r, insertDetail r sorted) acc l ≡ₚ acc ++ l.
Proof.
  revert acc. induction l as [|d l IH]; intros acc; simpl.
  - by rewrite app_nil_r.
  - rewrite IH, insertDetail_perm. simpl. apply Permutation_middle.
Qed.

Lemma sortResourceDetails_perm (l : list (@ResourceDetail float64)) :
  sortResourceDetails l ≡ₚ l.
Proof. apply sortResourceDetails_loop_perm. Qed.

Lemma insertDetail_sorted d (l : list (@ResourceDetail float64)) :
  StronglySorted addr_le l → StronglySorted addr_le (insertDetail d l).
Proof.
  induction 1 as [|d' l Hl IH Hd']; simpl.
  - repeat constructor.
  - destruct (string_lt (Address d) (Address d')) eqn:Hlt.
    + apply string_lt_le in Hlt.
      constructor; [by constructor|].
      constructor; [done|].
      eapply Forall_impl; [exact Hd'|].
      intros d'' Hd''. unfold addr_le in *. by etrans.
    + apply string_lt_ge in Hlt.
      constructor; [done|].
      rewrite insertDetail_perm. by constructor.
Qed.

Lemma sortResourceDetails_sorted (l : list (@ResourceDetail float64)) :
  StronglySorted addr_le (sortResourceDetails l).
Proof.
  unfold sortResourceDetails.
  assert (StronglySorted addr_le (@nil (@ResourceDetail float64))) as Hacc
    by constructor.
  revert Hacc. generalize (@nil (@ResourceDetail float64)).
  induction l as [|d l IH]; intros acc Hacc; simpl; [done|].
  by apply IH, insertDetail_sorted.
Qed.

Lemma StronglySorted_lookup {A} (R : relation A) (l : list A) i j x y :
  StronglySorted R l → i < j → l !! i = Some x → l !! j = Some y → R x y.
Proof.
  intros Hl. revert i j. induction Hl as [|a l Hl IH Ha]; intros i j Hij Hi Hj.
  - by rewrite lookup_nil in Hi.
  - destruct j as [|j]; [lia|]. destruct i as [|i]; simpl in *.
    + injection Hi as <-. eapply Forall_forall; [exact Ha|].
      by eapply list_elem_of_lookup_2.
    + eapply (IH i j); [lia|done..].
Qed.

(** ** Classifier *)

Lemma analyzeResourceChanges_unfold o n (changes : list (@ResourceChange float64)) :
  run (analyzeResourceChanges fmt_float64 o changes) n
  = let summary :=
      run (foldM (classifyChange fmt_float64 o)
             (mkResourceSummary [] [] [] []) changes) n in
    mkResourceSummary
      (sortResourceDetails (Create summary))
      (sortResourceDetails (Update summary))
      (sortResourceDetails (Delete summary))
      (sortResourceDetails (Replace summary)).
Proof. unfold analyzeResourceChanges. by rewrite run_bind. Qed.

Lemma analyzeResourceChanges_bucket o n (changes : list (@ResourceChange float64)) b :
  bucketOf (run (analyzeResourceChanges fmt_float64 o changes) n) b
  = sortResourceDetails
      (bucketOf (run (foldM (classifyChange fmt_float64 o)
                        (mkResourceSummary [] [] [] []) changes) n) b).
Proof. rewrite analyzeResourceChanges_unfold. by destruct b. Qed.

(** C7. After classification every bucket is sorted by address: an entry at
    a smaller index has an address that is at most, in byte-wise
    lexicographic order, the address of an entry at a larger index. *)
Theorem analyzeResourceChanges_sorted o n (changes : list (@ResourceChange float64))
    b i j di dj :
  i < j →
  bucketOf (run (analyzeResourceChanges fmt_float64 o changes) n) b !! i = Some di →
  bucketOf (run (analyzeResourceChanges fmt_float64 o changes) n) b !! j = Some dj →
  String.leb (Address di) (Address dj) = true.
Proof.
  rewrite analyzeResourceChanges_bucket. intros Hij Hi Hj.
  apply Is_true_true.
  exact (StronglySorted_lookup addr_le _ i j di dj
           (sortResourceDetails_sorted _) Hij Hi Hj).
Qed.

(** One iteration of the classifier, by the bucket of the specification. *)
Lemma classifyChange_cases o n s (rc : @ResourceChange float64) :
  classifyChange fmt_float64 o s rc n
  = let a := analyzeAttributeChanges fmt_float64 o (RCChange rc) n in
    match spec_bucket (Actions (RCChange rc)) with
    | Some BReplace =>
        let r := determineReplaceReason fmt_float64 o (RCChange rc) a.2 in
        (mkResourceSummary (Create s) (Update s) (Delete s)
           (Replace s ++ [mkResourceDetail (RCAddress rc) a.1 r.1]), r.2)
    | Some BCreate =>
        (mkResourceSummary (Create s ++ [mkResourceDetail (RCAddress rc) a.1 ""])
           (Update s) (Delete s) (Replace s), a.2)
    | Some BUpdate =>
        (mkResourceSummary (Create s)
           (Update s ++ [mkResourceDetail (RCAddress rc) a.1 ""])
           (Delete s) (Replace s), a.2)
    | Some BDelete =>
        (mkResourceSummary (Create s) (Update s)
           (Delete s ++ [mkResourceDetail (RCAddress rc) a.1
                           (determineDeleteReason fmt_float64 (RCChange rc))])
           (Replace s), a.2)
    | None => (s, a.2)
    end.
Proof.
  unfold classifyChange, spec_bucket. rewrite bind_unfold. cbv zeta.
  destruct (containsAction (Actions (RCChange rc)) "create") eqn:Hc;
    destruct (containsAction (Actions (RCChange rc)) "delete") eqn:Hd;
    destruct (containsAction (Actions (RCChange rc)) "update") eqn:Hu;
    repeat match goal with
      | H : containsAction _ _ = true |- _ => apply containsAction_true in H
      | H : containsAction _ _ = false |- _ => apply containsAction_false in H
      end;
    cbn [andb];
    repeat (destruct (decide _) as [?|?]; try tauto);
    rewrite ?bind_unfold; reflexivity.
Qed.

Lemma classifyChange_bucket o n s (rc : @ResourceChange float64) b :
  ∃ l, bucketOf (classifyChange fmt_float64 o s rc n).1 b = bucketOf s b ++ l
       ∧ Forall2 (detail_for fmt_float64 o b) (filter (placed b) [rc]) l.
Proof.
  rewrite classifyChange_cases. cbv zeta.
  destruct (spec_bucket (Actions (RCChange rc))) as [b'|] eqn:Hsb.
  - destruct (decide (b' = b)) as [->|Hne].
    + rewrite filter_cons_True by exact Hsb. rewrite filter_nil.
      destruct b; (eexists [_]; split; [reflexivity|]);
        (constructor; [|constructor]);
        (split; [done|split; [by eexists|]]); simpl; try done; by eexists.
    + rewrite filter_cons_False by (unfold placed; congruence).
      exists []. split; [|constructor].
      destruct b', b; try done; by rewrite app_nil_r.
  - rewrite filter_cons_False by (unfold placed; congruence).
    exists []. split; [by rewrite app_nil_r|constructor].
Qed.

Lemma foldM_classifyChange_bucket o (changes : list (@ResourceChange float64)) :
  ∀ n s b,
    ∃ l, bucketOf (foldM (classifyChange fmt_float64 o) s changes n).1 b
         = bucketOf s b ++ l
         ∧ Forall2 (detail_for fmt_float64 o b) (filter (placed b) changes) l.
Proof.
  induction changes as [|rc changes IH]; intros n s b.
  - exists []. split; [by rewrite app_nil_r|constructor].
  - cbn [foldM]. rewrite bind_unfold.
    destruct (classifyChange_bucket o n s rc b) as (l1 & Hl1 & HF1).
    destruct (IH (classifyChange fmt_float64 o s rc n).2
                (classifyChange fmt_float64 o s rc n).1 b) as (l2 & Hl2 & HF2).
    exists (l1 ++ l2). split.
    + by rewrite Hl2, Hl1, app_assoc.
    + change (rc :: changes) with ([rc] ++ changes). rewrite filter_app.
      by apply Forall2_app.
Qed.

Lemma spec_bucket_ext (actions actions' : list string) :
  (∀ a, a ∈ actions ↔ a ∈ actions') →
  spec_bucket actions = spec_bucket actions'.
Proof.
  intros Hext. unfold spec_bucket.
  repeat (destruct (decide _) as [?|?]); try done;
    exfalso; rewrite ?Hext in *; tauto.
Qed.

(** C1. Each bucket of the summary holds, up to the final sort, exactly one
    entry per resource change that the specification places in it, in the
    order of the changes: Replace when the actions contain create and
    delete, else Create when they contain create, else Update when they
    contain update, else Delete when they contain delete, and no bucket
    otherwise. The entry has the address of the change and a diff of it;
    its reason is the replacement reason in Replace, the deletion reason in
    Delete, and empty in Create and Update. The bucket of a change is the
    same for two action lists with the same members. *)
Theorem analyzeResourceChanges_buckets o n (changes : list (@ResourceChange float64)) :
  (∀ b, ∃ l,
     bucketOf (run (analyzeResourceChanges fmt_float64 o changes) n) b ≡ₚ l
     ∧ Forall2 (detail_for fmt_float64 o b)
         (filter (λ rc : @ResourceChange float64,
                    spec_bucket (Actions (RCChange rc)) = Some b) changes) l)
  ∧ (∀ s (rc rc' : @ResourceChange float64),
       RCAddress rc = RCAddress rc' →
       Before (RCChange rc) = Before (RCChange rc') →
       After (RCChange rc) = After (RCChange rc') →
       (∀ a, a ∈ Actions (RCChange rc) ↔ a ∈ Actions (RCChange rc')) →
       classifyChange fmt_float64 o s rc n = classifyChange fmt_float64 o s rc' n).
Proof.
  split.
  - intros b. rewrite analyzeResourceChanges_bucket.
    destruct (foldM_classifyChange_bucket o changes n
                (mkResourceSummary [] [] [] []) b) as (l & Hl & HF).
    exists l. split; [|exact HF].
    rewrite sortResourceDetails_perm. unfold run. rewrite Hl. by destruct b.
  - intros s rc rc' Haddr Hb Ha Hacts.
    rewrite !classifyChange_cases. cbv zeta.
    rewrite (spec_bucket_ext _ _ Hacts), Haddr.
    assert (analyzeAttributeChanges fmt_float64 o (RCChange rc)
            = analyzeAttributeChanges fmt_float64 o (RCChange rc')) as ->.
    { unfold analyzeAttributeChanges. by rewrite Hb, Ha. }
    assert (determineReplaceReason fmt_float64 o (RCChange rc)
            = determineReplaceReason fmt_float64 o (RCChange rc')) as ->.
    { unfold determineReplaceReason, analyzeAttributeChanges. by rewrite Hb, Ha. }
    assert (determineDeleteReason fmt_float64 (RCChange rc)
            = determineDeleteReason fmt_float64 (RCChange rc')) as ->.
    { unfold determineDeleteReason. by rewrite Hb. }
    done.
Qed.

(** ** Skip set *)

Lemma analyzeAttributeChanges_clean o n change :
  clean_changes (run (analyzeAttributeChanges fmt_float64 o change) n).
Proof.
  apply Forall_forall. intros c Hc.
  by apply analyzeAttributeChanges_elem_of in Hc as [? _].
Qed.

Lemma analyzeResourceChanges_clean o n (changes : list (@ResourceChange float64)) :
  clean_summary (run (analyzeResourceChanges fmt_float64 o changes) n).
Proof.
  intros b. rewrite analyzeResourceChanges_bucket, sortResourceDetails_perm.
  destruct (foldM_classifyChange_bucket o changes n
              (mkResourceSummary [] [] [] []) b) as (l & Hl & HF).
  unfold run. rewrite Hl.
  replace (bucketOf (mkResourceSummary [] [] [] []) b)
    with (@nil (@ResourceDetail float64)) by (by destruct b).
  rewrite app_nil_l. clear Hl.
  induction HF as [|rc d rcs l (_ & (k & Hk) & _) _ IH]; constructor; [|done].
  rewrite Hk. apply analyzeAttributeChanges_clean.
Qed.

(** C4. No attribute change with key id, arn, tags_all or timeouts is ever
    produced: the summary of any list of resource changes carries none in
    any bucket, whatever the values of these keys; the single-plan Markdown
    and every environment section of the multi-plan Markdown are written
    from such a summary. *)
Theorem skip_keys_never_reported o :
  (∀ n (changes : list (@ResourceChange float64)) b d c,
     d ∈ bucketOf (run (analyzeResourceChanges fmt_float64 o changes) n) b →
     c ∈ Changes d →
     Attribute c ≠ "id" ∧ Attribute c ≠ "arn"
     ∧ Attribute c ≠ "tags_all" ∧ Attribute c ≠ "timeouts")
  ∧ (∀ n (plan : @TerraformPlan float64),
       ∃ s, clean_summary s
            ∧ run (generateMarkdownComment fmt_float64 o plan) n
              = renderSummary fmt_float64 s (TerraformVersion plan))
  ∧ (∀ n md (planInfo : @PlanInfo float64),
       ∃ s, clean_summary s
            ∧ run (environmentSection fmt_float64 o md planInfo) n
              = writeEnvironment md (RelativePath planInfo) s).
Proof.
  split; [|split].
  - intros n changes b d c Hd Hc.
    pose proof (analyzeResourceChanges_clean o n changes b) as Hclean.
    rewrite Forall_forall in Hclean. specialize (Hclean d Hd).
    unfold clean_changes in Hclean. rewrite Forall_forall in Hclean.
    specialize (Hclean c Hc). unfold skipAttributes in Hclean.
    rewrite !not_elem_of_cons in Hclean. tauto.
  - intros n plan. eexists. split; [apply analyzeResourceChanges_clean|].
    unfold generateMarkdownComment. by rewrite run_bind.
  - intros n md planInfo. eexists. split; [apply analyzeResourceChanges_clean|].
    unfold environmentSection. by rewrite run_bind.
Qed.

(** ** Single-plan render *)

(** C8. When the four buckets of the summary of a plan are empty, the
    single-plan Markdown is the header line, an empty line, the no-changes
    sentence and an empty line, and nothing else. *)
Theorem generateMarkdownComment_no_changes o n (plan : @TerraformPlan float64) :
  let summary := run (analyzeResourceChanges fmt_float64 o (ResourceChanges plan)) n in
  Create summary = [] → Update summary = [] →
  Delete summary = [] → Replace summary = [] →
  run (generateMarkdownComment fmt_float64 o plan) n
  = ("## ðŸ“‹ Terraform Plan Summary" +:+ LF +:+ LF)
      +:+ ("âœ… **No changes detected** - Infrastructure is up to date!" +:+ LF
      +:+ LF).
Proof.
  intros summary Hc Hu Hd Hr. subst summary. unfold run in *.
  unfold generateMarkdownComment. rewrite bind_unfold. unfold ret. cbn [fst].
  unfold renderSummary. rewrite Hc, Hu, Hd, Hr. reflexivity.
Qed.

End Properties.

(** * The theorems at sample inputs *)

Section Samples.

Import Sample.

(** The differ on the sample database resource: a changed, a new and a
    removed attribute. *)
Lemma analyzeAttributeChanges_spec_witness :
  fair forward
  ∧ filter (λ c, Attribute c = "name")
      (run (analyzeAttributeChanges fmt forward (db_change ["update"])) 0)
    = [mkAttributeChange "name" (VStr "old") (VStr "new") false false]
  ∧ filter (λ c, Attribute c = "zones")
      (run (analyzeAttributeChanges fmt forward (db_change ["update"])) 0)
    = [mkAttributeChange "zones" VNil (VSlice [VStr "a"; VStr "b"]) true false]
  ∧ filter (λ c, Attribute c = "port")
      (run (analyzeAttributeChanges fmt forward (db_change ["update"])) 0)
    = [mkAttributeChange "port" (VNum 5432%Z) VNil false true].
Proof.
  split; [exact forward_fair|].
  destruct (analyzeAttributeChanges_spec fmt forward 0 (db_change ["update"])
              forward_fair) as [H _].
  cbn [Before After db_change] in H.
  rewrite (H "name"), (H "zones"), (H "port")
    by (by apply shouldSkipAttribute_false).
  vm_compute. done.
Defined.

(** A replacement whose two states differ at [id] only. *)
Lemma determineReplaceReason_skip_only_witness :
  Before id_only_change = VMap id_only_before
  ∧ After id_only_change = VMap id_only_after
  ∧ (∀ key, key ∉ skipAttributes →
       id_only_before !! key = id_only_after !! key)
  ∧ run (analyzeAttributeChanges fmt forward id_only_change) 0 = []
  ∧ run (determineReplaceReason fmt forward id_only_change) 0
    = "Resource configuration requires replacement".
Proof.
  assert (∀ key, key ∉ skipAttributes →
            id_only_before !! key = id_only_after !! key) as Hsame.
  { intros key Hkey. unfold id_only_before, id_only_after.
    assert ("id" ≠ key) by (intros <-; apply Hkey; by apply shouldSkipAttribute_true).
    by rewrite !(lookup_insert_ne _ "id" key) by done. }
  destruct (determineReplaceReason_skip_only fmt forward 0 id_only_change
              id_only_before id_only_after eq_refl eq_refl Hsame)
    as (Hdiff & _ & Hreason & _).
  split; [reflexivity|]. split; [reflexivity|]. split; [exact Hsame|].
  split; [exact Hdiff|exact Hreason].
Defined.

(** The two updated resources of the sample plan come out in address order,
    the reverse of their order in the plan. *)
Lemma analyzeResourceChanges_sorted_witness :
  ∃ di dj,
    0 < 1
    ∧ bucketOf (run (analyzeResourceChanges fmt forward (ResourceChanges plan)) 0)
        BUpdate !! 0 = Some di
    ∧ bucketOf (run (analyzeResourceChanges fmt forward (ResourceChanges plan)) 0)
        BUpdate !! 1 = Some dj
    ∧ Address di = "aws_db_instance.a"
    ∧ Address dj = "aws_db_instance.c"
    ∧ String.leb (Address di) (Address dj) = true.
Proof.
  destruct (bucketOf (run (analyzeResourceChanges fmt forward
                             (ResourceChanges plan)) 0) BUpdate !! 0)
    as [di|] eqn:Hi; [|by vm_compute in Hi].
  destruct (bucketOf (run (analyzeResourceChanges fmt forward
                             (ResourceChanges plan)) 0) BUpdate !! 1)
    as [dj|] eqn:Hj; [|by vm_compute in Hj].
  exists di, dj.
  assert (0 < 1) as Hij by lia.
  pose proof (analyzeResourceChanges_sorted fmt forward 0 (ResourceChanges plan)
                BUpdate 0 1 di dj Hij Hi Hj) as Hle.
  split; [exact Hij|]. split; [reflexivity|]. split; [reflexivity|].
  split; [|split; [|exact Hle]].
  - vm_compute in Hi. by injection Hi as <-.
  - vm_compute in Hj. by injection Hj as <-.
Defined.

(** The plan with no resource changes. *)
Lemma generateMarkdownComment_no_changes_witness :
  Create (run (analyzeResourceChanges fmt forward (ResourceChanges empty_plan)) 0) = []
  ∧ Update (run (analyzeResourceChanges fmt forward (ResourceChanges empty_plan)) 0) = []
  ∧ Delete (run (analyzeResourceChanges fmt forward (ResourceChanges empty_plan)) 0) = []
  ∧ Replace (run (analyzeResourceChanges fmt forward (ResourceChanges empty_plan)) 0) = []
  ∧ run (generateMarkdownComment fmt forward empty_plan) 0
    = ("## ðŸ“‹ Terraform Plan Summary" +:+ LF +:+ LF)
        +:+ ("âœ… **No changes detected** - Infrastructure is up to date!"
        +:+ LF +:+ LF).
Proof.
  split; [reflexivity|]. split; [reflexivity|].
  split; [reflexivity|]. split; [reflexivity|].
  apply (generateMarkdownComment_no_changes fmt forward 0 empty_plan);
    reflexivity.
Defined.

(** C2 as the specification words it fails: both name and engine change,
    the diff lists engine first, and the reason names engine although name
    comes first in the priority list. *)
Lemma determineReplaceReason_priority_counterexample :
  fair forward
  ∧ Attribute <$> run (analyzeAttributeChanges fmt forward
                         (db_change ["delete"; "create"])) 0
    = ["engine"; "name"; "zones"; "port"]
  ∧ run (determineReplaceReason fmt forward (db_change ["delete"; "create"])) 0
    = "Attribute 'engine' changed from 'pg' to 'my' (forces replacement)"
  ∧ spec_replace_reason fmt
      (run (analyzeAttributeChanges fmt forward (db_change ["delete"; "create"])) 0)
    = "Attribute 'name' changed from 'old' to 'new' (forces replacement)"
  ∧ run (determineReplaceReason fmt forward (db_change ["delete"; "create"])) 0
    ≠ spec_replace_reason fmt
        (run (analyzeAttributeChanges fmt forward
                (db_change ["delete"; "create"])) 0).
Proof.
  split; [exact forward_fair|].
  split; [by vm_compute|]. split; [by vm_compute|]. split; [by vm_compute|].
  by vm_compute.
Qed.

(** C9. The code breaks it: two renders of one plan whose updated resource
    has two changed attributes, under two orders of the [range] over the
    keys, list the two attribute lines in opposite orders and so give
    different Markdown. *)
Lemma generateMarkdownComment_two_runs :
  fair forward ∧ fair backward
  ∧ run (generateMarkdownComment fmt forward Sample2.resize_plan) 0
    = Sample2.resize_report (Sample2.cpu_line +:+ Sample2.memory_line)
  ∧ run (generateMarkdownComment fmt backward Sample2.resize_plan) 0
    = Sample2.resize_report (Sample2.memory_line +:+ Sample2.cpu_line)
  ∧ run (generateMarkdownComment fmt forward Sample2.resize_plan) 0
    ≠ run (generateMarkdownComment fmt backward Sample2.resize_plan) 0.
Proof.
  split; [exact forward_fair|]. split; [exact backward_fair|].
  split; [by vm_compute|]. split; [by vm_compute|].
  apply String.eqb_neq. by vm_compute.
Qed.

End Samples.

(** * Further properties *)

Section Summary.

Context {float64 : Type} (fmt_float64 : float64 → string).

Implicit Types (o : Oracle) (n : nat) (b : Bucket).
Implicit Types (change : @Change float64) (c : @AttributeChange float64).
Implicit Types (d : @ResourceDetail float64) (s : @ResourceSummary float64).
Implicit Types (rc : @ResourceChange float64).

(** ** Addresses and sizes of the buckets *)

Lemma insertDetail_addresses d1 d2 (l1 l2 : list (@ResourceDetail float64)) :
  Address d1 = Address d2 → Address <$> l1 = Address <$> l2 →
  Address <$> insertDetail d1 l1 = Address <$> insertDetail d2 l2.
Proof.
  intros Hd. revert l2.
  induction l1 as [|a1 l1 IH]; intros [|a2 l2] Hl; try discriminate Hl.
  - cbn [insertDetail]. by rewrite !fmap_cons, Hd.
  - rewrite !fmap_cons in Hl. injection Hl as Ha Hl.
    cbn [insertDetail]. rewrite Hd, Ha.
    destruct (string_lt (Address d2) (Address a2)); rewrite !fmap_cons.
    + by rewrite Hd, Ha, Hl.
    + by rewrite Ha, (IH l2 Hl).
Qed.

Lemma sortResourceDetails_addresses (l1 l2 : list (@ResourceDetail float64)) :
  Address <$> l1 = Address <$> l2 →
  Address <$> sortResourceDetails l1 = Address <$> sortResourceDetails l2.
Proof.
  unfold sortResourceDetails.
  assert (Address <$> @nil (@ResourceDetail float64)
          = Address <$> @nil (@ResourceDetail float64)) as Hacc by done.
  revert Hacc. generalize (@nil (@ResourceDetail float64)) at 1 3.
  generalize (@nil (@ResourceDetail float64)).
  revert l2.
  induction l1 as [|d1 l1 IH]; intros [|d2 l2] acc2 acc1 Hacc Hl;
    try discriminate Hl; [done|].
  rewrite !fmap_cons in Hl. injection Hl as Hd Hl. cbn [foldl].
  apply IH; [|done]. by apply insertDetail_addresses.
Qed.

Lemma detail_for_addresses o b (rcs : list (@ResourceChange float64))
    (l : list (@ResourceDetail float64)) :
  Forall2 (detail_for fmt_float64 o b) rcs l →
  Address <$> l = RCAddress <$> rcs.
Proof.
  induction 1 as [|rc d rcs l (Haddr & _) _ IH]; [done|].
  by rewrite !fmap_cons, Haddr, IH.
Qed.

Lemma unsorted_bucket o n (changes : list (@ResourceChange float64)) b :
  ∃ l, bucketOf (run (foldM (classifyChange fmt_float64 o)
                        (mkResourceSummary [] [] [] []) changes) n) b = l
       ∧ Forall2 (detail_for fmt_float64 o b) (filter (placed b) changes) l.
Proof.
  destruct (foldM_classifyChange_bucket fmt_float64 o changes n
              (mkResourceSummary [] [] [] []) b) as (l & Hl & HF).
  exists l. split; [|done]. unfold run. rewrite Hl. by destruct b.
Qed.

Lemma bucket_addresses_sorted o n (changes : list (@ResourceChange float64)) b :
  Address <$> bucketOf (run (analyzeResourceChanges fmt_float64 o changes) n) b
  = Address <$>
      sortResourceDetails
        ((λ rc, @mkResourceDetail float64 (RCAddress rc) [] "")
           <$> filter (placed b) changes).
Proof.
  rewrite analyzeResourceChanges_bucket.
  destruct (unsorted_bucket o n changes b) as (l & -> & HF).
  apply sortResourceDetails_addresses.
  rewrite (detail_for_addresses _ _ _ _ HF).
  rewrite <- list_fmap_compose. done.
Qed.

Lemma formatResourceList_addresses (l1 l2 : list (@ResourceDetail float64))
    (maxDisplay : nat) :
  Address <$> l1 = Address <$> l2 →
  formatResourceList l1 maxDisplay = formatResourceList l2 maxDisplay.
Proof.
  intros Haddr. unfold formatResourceList.
  change (map Address l1) with (Address <$> l1).
  change (map Address l2) with (Address <$> l2).
  assert (length l1 = length l2) as Hlen.
  { by rewrite <- (length_fmap Address l1), Haddr, length_fmap. }
  by rewrite Haddr, Hlen.
Qed.

(** The addresses of a bucket are the sorted addresses of the resource
    changes placed in it. The iteration order of the maps plays no part:
    the resource list that a summary row shows for the bucket is the same
    under any two orders. *)
Theorem bucket_addresses o n (changes : list (@ResourceChange float64)) b :
  Address <$> bucketOf (run (analyzeResourceChanges fmt_float64 o changes) n) b
  = Address <$>
      sortResourceDetails
        ((λ rc, @mkResourceDetail float64 (RCAddress rc) [] "")
           <$> filter (λ rc : @ResourceChange float64,
                         spec_bucket (Actions (RCChange rc)) = Some b) changes)
  ∧ ∀ o' n' maxDisplay,
      formatResourceList
        (bucketOf (run (analyzeResourceChanges fmt_float64 o changes) n) b)
        maxDisplay
      = formatResourceList
          (bucketOf (run (analyzeResourceChanges fmt_float64 o' changes) n') b)
          maxDisplay.
Proof.
  split; [apply bucket_addresses_sorted|].
  intros o' n' maxDisplay. apply formatResourceList_addresses.
  by rewrite !bucket_addresses_sorted.
Qed.

Lemma bucket_length o n (changes : list (@ResourceChange float64)) b :
  length (bucketOf (run (analyzeResourceChanges fmt_float64 o changes) n) b)
  = length (filter (placed b) changes).
Proof.
  rewrite analyzeResourceChanges_bucket, sortResourceDetails_perm.
  destruct (unsorted_bucket o n changes b) as (l & -> & HF).
  symmetry. by eapply Forall2_length.
Qed.

Lemma classified_split (changes : list (@ResourceChange float64)) :
  length (filter (placed BCreate) changes)
  + length (filter (placed BUpdate) changes)
  + length (filter (placed BDelete) changes)
  + length (filter (placed BReplace) changes)
  = length (filter classified changes).
Proof.
  induction changes as [|rc changes IH]; [done|].
  rewrite !filter_cons.
  destruct (decide (placed BCreate rc)) as [H1|H1],
    (decide (placed BUpdate rc)) as [H2|H2],
    (decide (placed BDelete rc)) as [H3|H3],
    (decide (placed BReplace rc)) as [H4|H4],
    (decide (classified rc)) as [H5|H5];
    unfold placed, classified in H1, H2, H3, H4, H5; simpl;
    try congruence; try lia;
    try (exfalso; apply H5; congruence);
    destruct (spec_bucket (Actions (RCChange rc))) as [[]|]; congruence.
Qed.

Lemma summary_total o n (changes : list (@ResourceChange float64)) :
  let summary := run (analyzeResourceChanges fmt_float64 o changes) n in
  length (Create summary) + length (Update summary)
  + length (Delete summary) + length (Replace summary)
  = length (filter classified changes).
Proof.
  intros summary. subst summary.
  pose proof (bucket_length o n changes BCreate) as Hc.
  pose proof (bucket_length o n changes BUpdate) as Hu.
  pose proof (bucket_length o n changes BDelete) as Hd.
  pose proof (bucket_length o n changes BReplace) as Hr.
  cbn [bucketOf] in Hc, Hu, Hd, Hr.
  by rewrite Hc, Hu, Hd, Hr, classified_split.
Qed.

(** The number of entries of a summary is the number of resource changes
    whose actions contain create, update or delete; each bucket has as many
    entries as changes placed in it. *)
Theorem summary_size o n (changes : list (@ResourceChange float64)) :
  let summary := run (analyzeResourceChanges fmt_float64 o changes) n in
  length (Create summary) + length (Update summary)
  + length (Delete summary) + length (Replace summary)
  = length (filter (λ rc : @ResourceChange float64,
                      "create" ∈ Actions (RCChange rc)
                      ∨ "update" ∈ Actions (RCChange rc)
                      ∨ "delete" ∈ Actions (RCChange rc)) changes)
  ∧ ∀ b, length (bucketOf summary b)
         = length (filter (λ rc : @ResourceChange float64,
                             spec_bucket (Actions (RCChange rc)) = Some b) changes).
Proof.
  intros summary. split; [|intros b; apply bucket_length].
  subst summary. rewrite (summary_total o n changes).
  f_equal. apply list_filter_iff. intros rc.
  unfold classified, spec_bucket.
  repeat (destruct (decide _) as [?|?]); naive_solver.
Qed.

(** ** Reasons carried by the entries *)

Lemma determineReplaceReason_nonempty o n change :
  run (determineReplaceReason fmt_float64 o change) n ≠ "".
Proof.
  rewrite determineReplaceReason_unfold. cbv zeta.
  rewrite forceReplaceLoop_spec.
  destruct (list_find _ _) as [[i c]|]; [done|].
  cbn [fmap option_fmap option_map]. by destruct (decide _).
Qed.

Lemma determineDeleteReason_nonempty change :
  determineDeleteReason fmt_float64 change ≠ "".
Proof.
  unfold determineDeleteReason.
  destruct (Before change); try done. by destruct (decide _).
Qed.

(** Every entry of the Replace and of the Delete bucket carries a reason
    that is not empty; every entry of the Create and of the Update bucket
    carries the empty reason. *)
Theorem force_reasons o n (changes : list (@ResourceChange float64)) b :
  Forall (λ d, match b with
               | BReplace | BDelete => ForceReason d ≠ ""
               | BCreate | BUpdate => ForceReason d = ""
               end)
    (bucketOf (run (analyzeResourceChanges fmt_float64 o changes) n) b).
Proof.
  rewrite analyzeResourceChanges_bucket, sortResourceDetails_perm.
  destruct (unsorted_bucket o n changes b) as (l & -> & HF).
  induction HF as [|rc d rcs l (_ & _ & Hreason) _ IH]; constructor; [|done].
  destruct b; try done.
  - rewrite Hreason. apply determineDeleteReason_nonempty.
  - destruct Hreason as [k ->]. apply determineReplaceReason_nonempty.
Qed.

(** ** Fields that are never read *)

Lemma classifyChange_same_inputs o s rc rc' :
  same_inputs rc rc' →
  classifyChange fmt_float64 o s rc = classifyChange fmt_float64 o s rc'.
Proof.
  intros (Haddr & Hact & Hb & Ha).
  assert (analyzeAttributeChanges fmt_float64 o (RCChange rc)
          = analyzeAttributeChanges fmt_float64 o (RCChange rc')) as Hdiff.
  { unfold analyzeAttributeChanges. by rewrite Hb, Ha. }
  assert (determineReplaceReason fmt_float64 o (RCChange rc)
          = determineReplaceReason fmt_float64 o (RCChange rc')) as Hrep.
  { unfold determineReplaceReason. by rewrite Hdiff. }
  assert (determineDeleteReason fmt_float64 (RCChange rc)
          = determineDeleteReason fmt_float64 (RCChange rc')) as Hdel.
  { unfold determineDeleteReason. by rewrite Hb. }
  unfold classifyChange. by rewrite Haddr, Hact, Hdiff, Hrep, Hdel.
Qed.

Lemma foldM_classifyChange_same_inputs o
    (changes changes' : list (@ResourceChange float64)) :
  Forall2 same_inputs changes changes' →
  ∀ s n, foldM (classifyChange fmt_float64 o) s changes n
         = foldM (classifyChange fmt_float64 o) s changes' n.
Proof.
  induction 1 as [|rc rc' changes changes' Hrc _ IH]; intros s n; [done|].
  cbn [foldM]. rewrite !bind_unfold.
  by rewrite (classifyChange_same_inputs o s rc rc' Hrc), IH.
Qed.

(** The summary and the single-plan Markdown read the address, the actions
    and the two states of each resource change, and the Terraform version:
    plans that agree on these give the same summary and the same Markdown,
    whatever their other fields hold. *)
Theorem unread_fields o n (plan plan' : @TerraformPlan float64) :
  Forall2 same_inputs (ResourceChanges plan) (ResourceChanges plan') →
  TerraformVersion plan = TerraformVersion plan' →
  run (analyzeResourceChanges fmt_float64 o (ResourceChanges plan)) n
  = run (analyzeResourceChanges fmt_float64 o (ResourceChanges plan')) n
  ∧ run (generateMarkdownComment fmt_float64 o plan) n
    = run (generateMarkdownComment fmt_float64 o plan') n.
Proof.
  intros Hsame Hversion.
  assert (analyzeResourceChanges fmt_float64 o (ResourceChanges plan) n
          = analyzeResourceChanges fmt_float64 o (ResourceChanges plan') n)
    as Heq.
  { unfold analyzeResourceChanges. rewrite !bind_unfold.
    by rewrite (foldM_classifyChange_same_inputs o _ _ Hsame). }
  split.
  - unfold run. by rewrite Heq.
  - unfold generateMarkdownComment, run. rewrite !bind_unfold.
    by rewrite Heq, Hversion.
Qed.

End Summary.

Section Differ.

Context {float64 : Type} (fmt_float64 : float64 → string).

Implicit Types (o : Oracle) (n : nat) (key : string).
Implicit Types (beforeMap afterMap : gmap string (@value float64)).
Implicit Types (change : @Change float64) (c : @AttributeChange float64).

(** ** One record per attribute *)

Lemma diffKey_cases beforeMap afterMap key :
  diffKey fmt_float64 beforeMap afterMap [] key = []
  ∨ ∃ c, diffKey fmt_float64 beforeMap afterMap [] key = [c]
         ∧ Attribute c = key.
Proof.
  unfold diffKey.
  repeat (case_match; simpl); (by left) || (right; by eexists).
Qed.

Lemma diffKey_attributes_sublist beforeMap afterMap keys :
  (Attribute <$> (keys ≫= diffKey fmt_float64 beforeMap afterMap []))
  `sublist_of` keys.
Proof.
  induction keys as [|key keys IH]; [done|].
  rewrite bind_cons, fmap_app.
  destruct (diffKey_cases beforeMap afterMap key) as [->|(c & -> & <-)].
  - by apply sublist_cons.
  - by apply sublist_skip.
Qed.

(** When every [range] visits each key once, no attribute occurs twice in
    the change list of a resource. *)
Theorem analyzeAttributeChanges_NoDup o n change :
  fair o →
  NoDup (Attribute <$> run (analyzeAttributeChanges fmt_float64 o change) n).
Proof.
  intros Hfair. unfold run, analyzeAttributeChanges.
  destruct (Before change) as [| | | | |beforeMap]; try apply NoDup_nil_2.
  destruct (After change) as [| | | | |afterMap]; try apply NoDup_nil_2.
  unfold bind, rangeKeys, ret. cbn [fst]. rewrite diffKey_loop, app_nil_l.
  eapply sublist_NoDup; [|apply diffKey_attributes_sublist].
  by apply fair_NoDup.
Qed.

(** ** Empty diffs *)

Lemma bind_nil_iff {A B} (f : A → list B) (l : list A) :
  l ≫= f = [] ↔ ∀ x, x ∈ l → f x = [].
Proof.
  induction l as [|a l IH].
  - split; [by intros _ x ?%elem_of_nil|done].
  - rewrite bind_cons. split.
    + intros [Ha Hl]%app_eq_nil x [->|Hx]%elem_of_cons; [done|].
      by apply IH.
    + intros H. rewrite (H a) by (apply elem_of_cons; by left).
      apply IH. intros x Hx. apply H. apply elem_of_cons; by right.
Qed.

(** When every [range] visits each key once, the change list of two
    mappings is empty exactly when every key outside the skip set is absent
    from both or present in both with values of equal [%v] rendering. *)
Theorem analyzeAttributeChanges_nil_iff o n change beforeMap afterMap :
  fair o →
  Before change = VMap beforeMap → After change = VMap afterMap →
  run (analyzeAttributeChanges fmt_float64 o change) n = []
  ↔ ∀ key, key ∉ skipAttributes →
      match beforeMap !! key, afterMap !! key with
      | Some beforeVal, Some afterVal =>
          Sprint fmt_float64 beforeVal = Sprint fmt_float64 afterVal
      | None, None => True
      | _, _ => False
      end.
Proof.
  intros Hfair Hb Ha. unfold run.
  rewrite (analyzeAttributeChanges_maps _ _ _ _ _ _ Hb Ha). cbn [fst].
  rewrite bind_nil_iff. split.
  - intros Hnil key Hskip. apply shouldSkipAttribute_false in Hskip.
    destruct (decide (key ∈ dom beforeMap ∪ dom afterMap)) as [Hin|Hout].
    + specialize (Hnil key). rewrite fair_elem_of in Hnil by done.
      specialize (Hnil Hin). unfold diffKey, deepEqual in Hnil.
      rewrite Hskip in Hnil.
      destruct (beforeMap !! key), (afterMap !! key); try done.
      by case_bool_decide.
    + apply not_elem_of_union in Hout as [Hb' Ha'].
      apply not_elem_of_dom in Hb', Ha'. by rewrite Hb', Ha'.
  - intros Hall key _. unfold diffKey, deepEqual.
    destruct (shouldSkipAttribute key) eqn:Hskip; [done|].
    apply shouldSkipAttribute_false in Hskip. specialize (Hall key Hskip).
    destruct (beforeMap !! key), (afterMap !! key); try done.
    by rewrite bool_decide_eq_true_2.
Qed.

(** ** Exchanging the two states *)

Lemma diffKey_swap beforeMap afterMap key :
  diffKey fmt_float64 afterMap beforeMap [] key
  = swapRecord <$> diffKey fmt_float64 beforeMap afterMap [] key.
Proof.
  unfold diffKey, deepEqual.
  destruct (shouldSkipAttribute key); [done|].
  destruct (beforeMap !! key) as [b|], (afterMap !! key) as [a|]; try done.
  destruct (decide (Sprint fmt_float64 b = Sprint fmt_float64 a)) as [Heq|Hne].
  - by rewrite !bool_decide_eq_true_2.
  - by rewrite !bool_decide_eq_false_2.
Qed.

(** The diff of a change read backwards is the diff of the change with each
    record read backwards: a new attribute becomes a removed one, a removed
    one a new one, and a changed one exchanges its two values. *)
Theorem analyzeAttributeChanges_swap o n change :
  run (analyzeAttributeChanges fmt_float64 o (swapChange change)) n
  = swapRecord <$> run (analyzeAttributeChanges fmt_float64 o change) n.
Proof.
  unfold run, analyzeAttributeChanges, swapChange. cbn [Before After].
  destruct (Before change) as [| | | | |beforeMap],
    (After change) as [| | | | |afterMap]; try done.
  unfold bind, rangeKeys, ret. cbn [fst]. rewrite !diffKey_loop, !app_nil_l.
  rewrite (union_comm_L (dom afterMap) (dom beforeMap)).
  generalize (o n (elements (dom beforeMap ∪ dom afterMap))). intros keys.
  induction keys as [|key keys IH]; [done|].
  by rewrite !bind_cons, fmap_app, IH, diffKey_swap.
Qed.

End Differ.

Section ReplaceReason.

Context {float64 : Type} (fmt_float64 : float64 → string).

Implicit Types (o : Oracle) (n : nat) (key : string).
Implicit Types (beforeMap afterMap : gmap string (@value float64)).
Implicit Types (change : @Change float64) (c : @AttributeChange float64).

Lemma diffKey_unchanged beforeMap afterMap key :
  beforeMap !! key = afterMap !! key →
  diffKey fmt_float64 beforeMap afterMap [] key = [].
Proof.
  intros Heq. unfold diffKey. rewrite Heq.
  destruct (shouldSkipAttribute key); [done|].
  destruct (afterMap !! key); [|done]. by rewrite deepEqual_refl.
Qed.

(** When every [range] visits each key once and exactly one of the listed
    attributes differs between the two states, the replacement reason names
    that attribute with the renderings of its two values, whatever the
    iteration order. *)
Theorem determineReplaceReason_single o n change beforeMap afterMap key
    (beforeVal afterVal : @value float64) :
  fair o →
  Before change = VMap beforeMap → After change = VMap afterMap →
  key ∈ forceReplaceAttrs →
  beforeMap !! key = Some beforeVal → afterMap !! key = Some afterVal →
  Sprint fmt_float64 beforeVal ≠ Sprint fmt_float64 afterVal →
  (∀ key', key' ∈ forceReplaceAttrs → key' ≠ key →
     beforeMap !! key' = afterMap !! key') →
  run (determineReplaceReason fmt_float64 o change) n
  = "Attribute '" +:+ key +:+ "' changed from '"
    +:+ Sprint fmt_float64 beforeVal +:+ "' to '"
    +:+ Sprint fmt_float64 afterVal +:+ "' (forces replacement)".
Proof.
  intros Hfair Hb Ha Hkey Hbv Hav Hne Hothers.
  assert (shouldSkipAttribute key = false) as Hskip.
  { revert Hkey. unfold forceReplaceAttrs. rewrite !elem_of_cons, elem_of_nil.
    intros [->|[->|[->|[->|[->|[]]]]]]; reflexivity. }
  assert (diffKey fmt_float64 beforeMap afterMap [] key
          = [mkAttributeChange key beforeVal afterVal false false]) as Hrecord.
  { unfold diffKey, deepEqual. rewrite Hskip, Hbv, Hav.
    by rewrite bool_decide_eq_false_2. }
  rewrite determineReplaceReason_unfold. cbv zeta.
  rewrite forceReplaceLoop_spec. unfold run.
  rewrite (analyzeAttributeChanges_maps _ _ _ _ _ _ Hb Ha). cbn [fst].
  set (keys := o n (elements (dom beforeMap ∪ dom afterMap))).
  assert (key ∈ keys) as Hin.
  { apply fair_elem_of; [done|]. apply elem_of_union_l, elem_of_dom. by eexists. }
  destruct (list_find _ _) as [[i c]|] eqn:Hfind.
  - apply list_find_Some in Hfind as (Hi & Hlisted & _).
    apply list_elem_of_lookup_2, list_elem_of_bind in Hi as (key' & Hc & _).
    destruct (decide (key' = key)) as [->|Hother].
    + rewrite Hrecord in Hc. apply list_elem_of_singleton in Hc as ->. done.
    + exfalso. pose proof (diffKey_attribute _ _ _ _ _ Hc) as [Hattr _].
      rewrite Hattr in Hlisted.
      rewrite (diffKey_unchanged _ _ _ (Hothers key' Hlisted Hother)) in Hc.
      by apply elem_of_nil in Hc.
  - exfalso. apply list_find_None in Hfind. rewrite Forall_forall in Hfind.
    apply (Hfind (mkAttributeChange key beforeVal afterVal false false));
      [|done].
    apply list_elem_of_bind. exists key. split; [|done].
    rewrite Hrecord. by apply list_elem_of_singleton.
Qed.

End ReplaceReason.

(** ** Strings *)

Lemma string_app_nil_r (s : string) : s +:+ "" = s.
Proof.
  induction s as [|a s IH]; [done|].
  change (String a s +:+ "") with (String a (s +:+ "")). by rewrite IH.
Qed.

Lemma string_app_assoc (s1 s2 s3 : string) :
  (s1 +:+ s2) +:+ s3 = s1 +:+ (s2 +:+ s3).
Proof.
  induction s1 as [|a s1 IH]; [done|].
  change ((String a s1 +:+ s2) +:+ s3) with (String a ((s1 +:+ s2) +:+ s3)).
  by rewrite IH.
Qed.

Lemma starts_with_refl (p : string) : starts_with p p.
Proof. exists "". by rewrite string_app_nil_r. Qed.

Lemma starts_with_app (p s x : string) :
  starts_with p s → starts_with p (s +:+ x).
Proof. intros [r ->]. exists (r +:+ x). apply string_app_assoc. Qed.

Lemma starts_with_foldl {A} (p : string) (f : string → A → string)
    (s : string) (l : list A) :
  (∀ s a, starts_with p s → starts_with p (f s a)) →
  starts_with p s → starts_with p (foldl f s l).
Proof.
  intros Hf. revert s. induction l as [|a l IH]; intros s Hs; [done|].
  cbn [foldl]. by apply IH, Hf.
Qed.

Lemma framed_close (p r a b : string) :
  framed p (a +:+ b) (((p +:+ r) +:+ a) +:+ b).
Proof. exists r. by rewrite !string_app_assoc. Qed.

Lemma framed_end (p r q : string) : framed p q ((p +:+ r) +:+ q).
Proof. exists r. apply string_app_assoc. Qed.

(** Proof steps for a builder: every write appends to what was written. *)
Ltac peel_let :=
  lazymatch goal with
  | |- ?Q (let x := ?a in @?f x) => change (Q (f a)); cbv beta
  end.

Ltac starts :=
  cbv beta;
  lazymatch goal with
  | |- starts_with ?p (let x := ?a in @?f x) =>
      lazymatch type of a with
      | string =>
          let H := fresh "Hstart" in
          assert (H : starts_with p a) by starts;
          revert H; generalize a; intros ? H; peel_let; starts
      | _ => peel_let; starts
      end
  | |- starts_with ?p (if ?c then _ else _) => destruct c; starts
  | |- starts_with ?p (foldl ?f ?a ?l) =>
      apply starts_with_foldl; [intros ? ? ?; starts | starts]
  | |- starts_with ?p (writeAttributeChanges _ ?a ?l) =>
      unfold writeAttributeChanges; starts
  | |- starts_with ?p (writeEnvironmentDetails ?a ?s) =>
      cbv beta delta [writeEnvironmentDetails]; starts
  | |- starts_with ?p (?a +:+ ?b) =>
      first [assumption | apply starts_with_app; starts]
  | |- _ => assumption
  end.

Ltac framed_stage :=
  lazymatch goal with
  | |- framed ?p ?q (let x := ?a in @?f x) =>
      let H := fresh "Hstart" in
      assert (H : starts_with p a) by starts;
      revert H; generalize a; intros ? H; peel_let
  end.

Section Render.

Context {float64 : Type} (fmt_float64 : float64 → string).

Implicit Types (o : Oracle) (n : nat).
Implicit Types (s : @ResourceSummary float64).

Lemma renderSummary_changes s (terraformVersion : string) :
  length (Create s) + length (Update s) + length (Delete s)
  + length (Replace s) ≠ 0 →
  framed
    (("## ðŸ“‹ Terraform Plan Summary" +:+ LF +:+ LF)
     +:+ ("**Total resources affected:** " +:+ pretty (length (Create s) + length (Update s) + length (Delete s) + length (Replace s)) +:+ LF +:+ LF))
    (("---" +:+ LF) +:+ ("*Generated from Terraform " +:+ terraformVersion +:+ " plan*" +:+ LF))
    (renderSummary fmt_float64 s terraformVersion).
Proof.
  intros Htotal. cbv beta delta [renderSummary].
  do 3 peel_let. destruct (decide _) as [?|_]; [done|].
  lazymatch goal with
  | |- framed ?p ?q (let x := ?a in @?f x) =>
      assert (starts_with p a) as Hbase by apply starts_with_refl;
      revert Hbase; generalize a; intros ? Hbase; peel_let
  end.
  do 11 framed_stage. peel_let.
  lazymatch goal with
  | H : starts_with _ ?md |- framed _ _ ((?md +:+ _) +:+ _) =>
      destruct H as [r ->]; apply framed_close
  end.
Qed.


Lemma filter_length_zero {A} (P : A → Prop) `{∀ x, Decision (P x)} (l : list A) :
  length (filter P l) = 0 ↔ ∀ x, x ∈ l → ¬ P x.
Proof.
  induction l as [|a l IH].
  - split; [by intros _ x ?%elem_of_nil|done].
  - rewrite filter_cons. destruct (decide (P a)) as [Ha|Ha]; simpl.
    + split; [done|]. intros Hall. exfalso.
      apply (Hall a); [apply elem_of_cons; by left|done].
    + rewrite IH. split.
      * intros Hall x [->|Hx]%elem_of_cons; [done|by apply Hall].
      * intros Hall x Hx. apply Hall. apply elem_of_cons; by right.
Qed.

Lemma generateMarkdownComment_unfold o n (plan : @TerraformPlan float64) :
  run (generateMarkdownComment fmt_float64 o plan) n
  = renderSummary fmt_float64
      (run (analyzeResourceChanges fmt_float64 o (ResourceChanges plan)) n)
      (TerraformVersion plan).
Proof. unfold generateMarkdownComment. by rewrite run_bind. Qed.

(** When at least one resource change of the plan is classified, the
    single-plan Markdown begins with the header and the line that gives
    the number of classified changes, and ends with the rule and the
    footer that cites the Terraform version of the plan as it is. *)
Theorem generateMarkdownComment_frame o n (plan : @TerraformPlan float64) :
  let total := length (filter classified (ResourceChanges plan)) in
  total ≠ 0 →
  framed
    (("## ðŸ“‹ Terraform Plan Summary" +:+ LF +:+ LF) +:+ ("**Total resources affected:** " +:+ pretty total +:+ LF +:+ LF))
    (("---" +:+ LF) +:+ ("*Generated from Terraform " +:+ TerraformVersion plan +:+ " plan*" +:+ LF))
    (run (generateMarkdownComment fmt_float64 o plan) n).
Proof.
  intros total Htotal. subst total.
  rewrite generateMarkdownComment_unfold.
  rewrite <- (summary_total fmt_float64 o n) in *. cbv zeta in *.
  by apply renderSummary_changes.
Qed.

(** The single-plan Markdown is the no-changes message exactly when no
    resource change of the plan has create, update or delete among its
    actions. *)
Theorem generateMarkdownComment_no_changes_iff o n (plan : @TerraformPlan float64) :
  run (generateMarkdownComment fmt_float64 o plan) n
  = ("## ðŸ“‹ Terraform Plan Summary" +:+ LF +:+ LF) +:+ ("âœ… **No changes detected** - Infrastructure is up to date!" +:+ LF +:+ LF)
  ↔ ∀ rc, rc ∈ ResourceChanges plan →
      ("create" ∉ Actions (RCChange rc))
      ∧ ("update" ∉ Actions (RCChange rc))
      ∧ ("delete" ∉ Actions (RCChange rc)).
Proof.
  rewrite generateMarkdownComment_unfold.
  pose proof (summary_total fmt_float64 o n (ResourceChanges plan)) as Htotal.
  cbv zeta in Htotal.
  assert ((∀ rc, rc ∈ ResourceChanges plan →
             ("create" ∉ Actions (RCChange rc))
             ∧ ("update" ∉ Actions (RCChange rc))
             ∧ ("delete" ∉ Actions (RCChange rc)))
          ↔ length (filter classified (ResourceChanges plan)) = 0) as ->.
  { rewrite filter_length_zero. apply forall_proper. intros rc.
    unfold classified, spec_bucket.
    repeat (destruct (decide _) as [?|?]); naive_solver. }
  rewrite <- Htotal. split.
  - intros Hmd.
    destruct (decide (length (Create (run (analyzeResourceChanges fmt_float64 o
                                             (ResourceChanges plan)) n))
                      + length (Update (run (analyzeResourceChanges fmt_float64 o
                                               (ResourceChanges plan)) n))
                      + length (Delete (run (analyzeResourceChanges fmt_float64 o
                                               (ResourceChanges plan)) n))
                      + length (Replace (run (analyzeResourceChanges fmt_float64 o
                                                (ResourceChanges plan)) n)) = 0))
      as [Hzero|Hpos]; [done|].
    destruct (renderSummary_changes _ (TerraformVersion plan) Hpos)
      as [body Hbody].
    rewrite Hbody in Hmd. discriminate Hmd.
  - intros Hzero. unfold renderSummary. by rewrite decide_True.
Qed.

End Render.

Section MultiPlan.

Context {float64 : Type} (fmt_float64 : float64 → string).

Implicit Types (o : Oracle) (n : nat) (t : Totals).
Implicit Types (plans : list (@PlanInfo float64)).

(** ** Grand totals and versions *)

Lemma first_seen_elem_of (l : list string) (v : string) :
  v ∈ first_seen l ↔ v ∈ l.
Proof.
  unfold first_seen. by rewrite elem_of_reverse, elem_of_remove_dups, elem_of_reverse.
Qed.

Lemma first_seen_NoDup (l : list string) : NoDup (first_seen l).
Proof.
  unfold first_seen. rewrite reverse_Permutation. apply NoDup_remove_dups.
Qed.

Lemma first_seen_snoc (l : list string) (v : string) :
  first_seen (l ++ [v])
  = if decide (v ∈ l) then first_seen l else first_seen l ++ [v].
Proof.
  unfold first_seen. rewrite reverse_snoc. cbn [remove_dups].
  destruct (decide_rel elem_of v (reverse l)) as [Hin|Hout];
    destruct (decide (v ∈ l)) as [Hin'|Hout']; try done.
  - exfalso. by apply Hout', elem_of_reverse.
  - exfalso. by apply Hout, elem_of_reverse.
  - by rewrite reverse_cons.
Qed.

Lemma existsb_bool_decide (l : list string) (v : string) :
  existsb (λ v', bool_decide (v' = v)) l = bool_decide (v ∈ l).
Proof.
  induction l as [|a l IH].
  - cbn [existsb]. symmetry. apply bool_decide_eq_false_2, not_elem_of_nil.
  - cbn [existsb]. rewrite IH.
    destruct (decide (a = v)) as [->|Hne].
    + rewrite (bool_decide_eq_true_2 (v = v)) by done.
      rewrite (bool_decide_eq_true_2 (v ∈ v :: l)); [done|].
      apply elem_of_cons; by left.
    + rewrite (bool_decide_eq_false_2 (a = v)) by done. cbn [orb].
      apply bool_decide_ext. rewrite elem_of_cons. naive_solver.
Qed.

Lemma versionStep_first_seen (l : list string) :
  foldl versionStep [] l = first_seen l.
Proof.
  induction l as [|v l IH] using rev_ind; [done|].
  rewrite foldl_app, first_seen_snoc. cbn [foldl]. rewrite IH.
  unfold versionStep. rewrite existsb_bool_decide.
  destruct (decide (v ∈ l)) as [Hin|Hout].
  - rewrite bool_decide_eq_true_2; [done|]. by apply first_seen_elem_of.
  - rewrite bool_decide_eq_false_2; [done|]. by rewrite first_seen_elem_of.
Qed.

Lemma accumulatePlan_unfold o t (planInfo : @PlanInfo float64) n :
  (accumulatePlan fmt_float64 o t planInfo n).1
  = mkTotals
      (totalCreate t + length (filter (placed BCreate) (ResourceChanges (Plan planInfo))))
      (totalUpdate t + length (filter (placed BUpdate) (ResourceChanges (Plan planInfo))))
      (totalDelete t + length (filter (placed BDelete) (ResourceChanges (Plan planInfo))))
      (totalReplace t + length (filter (placed BReplace) (ResourceChanges (Plan planInfo))))
      (versionStep (allTerraformVersions t) (TerraformVersion (Plan planInfo))).
Proof.
  unfold accumulatePlan. rewrite bind_unfold. cbn [ret fst].
  pose proof (bucket_length fmt_float64 o n (ResourceChanges (Plan planInfo)))
    as Hlen. unfold run in Hlen.
  by rewrite <- (Hlen BCreate), <- (Hlen BUpdate), <- (Hlen BDelete),
    <- (Hlen BReplace).
Qed.

Lemma grandTotals_loop o plans :
  ∀ t n,
    (foldM (accumulatePlan fmt_float64 o) t plans n).1
    = mkTotals (totalCreate t + placed_total BCreate plans)
        (totalUpdate t + placed_total BUpdate plans)
        (totalDelete t + placed_total BDelete plans)
        (totalReplace t + placed_total BReplace plans)
        (foldl versionStep (allTerraformVersions t)
           ((λ p, TerraformVersion (Plan p)) <$> plans)).
Proof.
  induction plans as [|p plans IH]; intros t n.
  - unfold placed_total. cbn. rewrite !Nat.add_0_r. by destruct t.
  - cbn [foldM]. rewrite bind_unfold, IH, accumulatePlan_unfold.
    unfold placed_total. rewrite !fmap_cons. cbn [sum_list sum_list_with foldl id
      totalCreate totalUpdate totalDelete totalReplace allTerraformVersions].
    f_equal; lia.
Qed.

(** The grand totals of the multi-plan report count, bucket by bucket, the
    resource changes of all plans that the actions place there; the
    collected versions are the distinct Terraform versions of the plans in
    the order of their first occurrence. *)
Theorem grandTotals_spec o n plans :
  let t := run (grandTotals fmt_float64 o plans) n in
  totalCreate t = placed_total BCreate plans
  ∧ totalUpdate t = placed_total BUpdate plans
  ∧ totalDelete t = placed_total BDelete plans
  ∧ totalReplace t = placed_total BReplace plans
  ∧ allTerraformVersions t
    = first_seen ((λ p, TerraformVersion (Plan p)) <$> plans)
  ∧ NoDup (allTerraformVersions t)
  ∧ ∀ v, v ∈ allTerraformVersions t
         ↔ ∃ p, p ∈ plans ∧ TerraformVersion (Plan p) = v.
Proof.
  intros t. subst t. unfold run, grandTotals. rewrite grandTotals_loop.
  cbn [totalCreate totalUpdate totalDelete totalReplace allTerraformVersions].
  rewrite versionStep_first_seen.
  repeat split; try done.
  - apply first_seen_NoDup.
  - intros (p & -> & Hp)%first_seen_elem_of%list_elem_of_fmap. by exists p.
  - intros (p & Hp & <-). apply first_seen_elem_of, list_elem_of_fmap.
    by exists p.
Qed.

(** ** The multi-plan report *)

Lemma writeEnvironment_starts (p md relativePath : string)
    (summary : @ResourceSummary float64) :
  starts_with p md → starts_with p (writeEnvironment md relativePath summary).
Proof. intros Hmd. cbv beta delta [writeEnvironment]. starts. Qed.

Lemma environmentSections_starts (p : string) o plans :
  ∀ md n, starts_with p md →
    starts_with p (foldM (environmentSection fmt_float64 o) md plans n).1.
Proof.
  induction plans as [|planInfo plans IH]; intros md n Hmd; [done|].
  cbn [foldM]. rewrite bind_unfold. apply IH.
  unfold environmentSection. rewrite bind_unfold. cbn [ret fst].
  by apply writeEnvironment_starts.
Qed.

Lemma generateMultiPlanMarkdownComment_cases o n plans :
  let t := (foldM (accumulatePlan fmt_float64 o) (mkTotals 0 0 0 0 []) plans n).1 in
  let total := totalCreate t + totalUpdate t + totalDelete t + totalReplace t in
  (total = 0 →
   run (generateMultiPlanMarkdownComment fmt_float64 o plans) n
   = ("## ðŸ“‹ Multi-Environment Terraform Plan Summary" +:+ LF +:+ LF) +:+ ("âœ… **No changes detected across all environments** - Infrastructure is up to date!" +:+ LF +:+ LF))
  ∧ (total ≠ 0 →
     framed
       (("## ðŸ“‹ Multi-Environment Terraform Plan Summary" +:+ LF +:+ LF) +:+ ("**Environments processed:** " +:+ pretty (length plans) +:+ LF) +:+ ("**Total resources affected:** " +:+ pretty total +:+ LF +:+ LF))
       (if decide (length (allTerraformVersions t) = 1)
        then ("*Generated from Terraform " +:+ default "" (head (allTerraformVersions t)) +:+ " plans*" +:+ LF)
        else ("*Generated from Terraform plans (versions: " +:+ Join (allTerraformVersions t) ", " +:+ ")*" +:+ LF))
       (run (generateMultiPlanMarkdownComment fmt_float64 o plans) n)).
Proof.
  intros t total. unfold run, generateMultiPlanMarkdownComment.
  rewrite bind_unfold. fold t. fold total.
  generalize (foldM (accumulatePlan fmt_float64 o) (mkTotals 0 0 0 0 []) plans n).2.
  intros n1.
  lazymatch goal with
  | |- context [if decide (?x = 0) then _ else _] =>
      change x with total; destruct (decide (total = 0)) as [Hzero|Hpos]
  end.
  { split; [reflexivity|done]. }
  split; [done|intros _]. rewrite bind_unfold.
  lazymatch goal with
  | |- context [foldM (environmentSection fmt_float64 o) ?md plans n1] =>
      lazymatch goal with
      | |- framed ?p _ _ =>
          assert (starts_with p (foldM (environmentSection fmt_float64 o)
                                   md plans n1).1) as [r Hr]
      end
  end.
  { apply environmentSections_starts.
    lazymatch goal with
    | |- context [(("" +:+ ?h) +:+ ?e)
                  +:+ ("**Total resources affected:** " +:+ ?x)] =>
        assert (starts_with
                  (("## ðŸ“‹ Multi-Environment Terraform Plan Summary" +:+ LF +:+ LF) +:+ ("**Environments processed:** " +:+ pretty (length plans) +:+ LF)
                   +:+ ("**Total resources affected:** " +:+ pretty total +:+ LF +:+ LF))
                  ((("" +:+ h) +:+ e)
                   +:+ ("**Total resources affected:** " +:+ x)))
          by apply starts_with_refl
    end.
    starts. }
  cbv beta. rewrite Hr.
  destruct (decide (length (allTerraformVersions t) = 1));
    cbn [ret fst]; apply framed_end.
Qed.


Lemma placed_total_classified plans :
  placed_total BCreate plans + placed_total BUpdate plans
  + placed_total BDelete plans + placed_total BReplace plans
  = classified_total plans.
Proof.
  unfold placed_total, classified_total.
  induction plans as [|p plans IH]; [done|].
  rewrite !fmap_cons. cbn [sum_list sum_list_with id].
  rewrite <- IH, <- (classified_split (ResourceChanges (Plan p))). lia.
Qed.

Lemma classified_total_zero plans :
  classified_total plans = 0
  ↔ ∀ p rc, p ∈ plans → rc ∈ ResourceChanges (Plan p) →
      ("create" ∉ Actions (RCChange rc))
      ∧ ("update" ∉ Actions (RCChange rc))
      ∧ ("delete" ∉ Actions (RCChange rc)).
Proof.
  assert (∀ rc : @ResourceChange float64,
            ¬ classified rc
            ↔ ("create" ∉ Actions (RCChange rc))
              ∧ ("update" ∉ Actions (RCChange rc))
              ∧ ("delete" ∉ Actions (RCChange rc))) as Hrc.
  { intros rc. unfold classified, spec_bucket.
    repeat (destruct (decide _) as [?|?]); naive_solver. }
  unfold classified_total. induction plans as [|p plans IH].
  - split; [by intros _ p rc ?%elem_of_nil|done].
  - rewrite fmap_cons. cbn [sum_list sum_list_with id]. split.
    + intros Hsum p' rc [->|Hp']%elem_of_cons Hin.
      * apply Hrc.
        apply (proj1 (filter_length_zero classified (ResourceChanges (Plan p))));
          [lia|done].
      * apply (proj1 IH ltac:(lia) p' rc Hp' Hin).
    + intros Hall.
      assert (length (filter classified (ResourceChanges (Plan p))) = 0) as ->.
      { apply (proj2 (filter_length_zero classified (ResourceChanges (Plan p)))).
        intros rc Hin. apply Hrc.
        apply (Hall p); [apply elem_of_cons; by left|done]. }
      apply (proj2 IH). intros p' rc Hp' Hin. apply (Hall p'); [|done].
      apply elem_of_cons; by right.
Qed.

Lemma grandTotals_total o n plans :
  let t := (foldM (accumulatePlan fmt_float64 o) (mkTotals 0 0 0 0 []) plans n).1 in
  totalCreate t + totalUpdate t + totalDelete t + totalReplace t
  = classified_total plans
  ∧ allTerraformVersions t
    = first_seen ((λ p, TerraformVersion (Plan p)) <$> plans).
Proof.
  intros t. subst t. rewrite grandTotals_loop.
  cbn [totalCreate totalUpdate totalDelete totalReplace allTerraformVersions].
  by rewrite versionStep_first_seen, <- placed_total_classified.
Qed.

(** When at least one resource change of some plan is classified, the
    multi-plan Markdown begins with the header, the number of plans and
    the number of classified changes of all plans; it ends with the footer
    that cites the one Terraform version when all plans share it, and the
    distinct versions joined by commas otherwise. *)
Theorem generateMultiPlanMarkdownComment_frame o n plans :
  let versions := first_seen ((λ p, TerraformVersion (Plan p)) <$> plans) in
  classified_total plans ≠ 0 →
  framed
    (("## ðŸ“‹ Multi-Environment Terraform Plan Summary" +:+ LF +:+ LF) +:+ ("**Environments processed:** " +:+ pretty (length plans) +:+ LF)
     +:+ ("**Total resources affected:** " +:+ pretty (classified_total plans) +:+ LF +:+ LF))
    (if decide (length versions = 1)
     then ("*Generated from Terraform " +:+ default "" (head versions) +:+ " plans*" +:+ LF)
     else ("*Generated from Terraform plans (versions: " +:+ Join versions ", " +:+ ")*" +:+ LF))
    (run (generateMultiPlanMarkdownComment fmt_float64 o plans) n).
Proof.
  intros versions Htotal. subst versions.
  destruct (generateMultiPlanMarkdownComment_cases o n plans) as [_ Hframe].
  destruct (grandTotals_total o n plans) as [Ht Hv]. cbv zeta in *.
  rewrite Hv, Ht in Hframe. by apply Hframe.
Qed.

(** The multi-plan Markdown is the no-changes message exactly when no
    resource change of any plan has create, update or delete among its
    actions; with no plan at all it is that message. *)
Theorem generateMultiPlanMarkdownComment_no_changes_iff o n plans :
  run (generateMultiPlanMarkdownComment fmt_float64 o plans) n
  = ("## ðŸ“‹ Multi-Environment Terraform Plan Summary" +:+ LF +:+ LF) +:+ ("âœ… **No changes detected across all environments** - Infrastructure is up to date!" +:+ LF +:+ LF)
  ↔ ∀ p rc, p ∈ plans → rc ∈ ResourceChanges (Plan p) →
      ("create" ∉ Actions (RCChange rc))
      ∧ ("update" ∉ Actions (RCChange rc))
      ∧ ("delete" ∉ Actions (RCChange rc)).
Proof.
  rewrite <- classified_total_zero.
  destruct (generateMultiPlanMarkdownComment_cases o n plans) as [Hzero Hframe].
  destruct (grandTotals_total o n plans) as [Ht _]. cbv zeta in *.
  rewrite Ht in Hzero, Hframe. split.
  - intros Hmd.
    destruct (decide (classified_total plans = 0)) as [?|Hpos]; [done|].
    destruct (Hframe Hpos) as [body Hbody].
    rewrite Hbody in Hmd. discriminate Hmd.
  - done.
Qed.

End MultiPlan.

Section Sorting.

Context {float64 : Type} (fmt_float64 : float64 → string).

Implicit Types (d : @ResourceDetail float64).

Lemma NoDup_fmap_eq {A B} (f : A → B) (l : list A) x y :
  NoDup (f <$> l) → x ∈ l → y ∈ l → f x = f y → x = y.
Proof.
  induction l as [|a l IH]; intros Hnd Hx Hy Hf.
  - by apply elem_of_nil in Hx.
  - rewrite fmap_cons in Hnd. apply NoDup_cons in Hnd as [Ha Hnd].
    apply elem_of_cons in Hx as [->|Hx], Hy as [->|Hy]; try done.
    + exfalso. apply Ha. rewrite Hf. by apply list_elem_of_fmap_2.
    + exfalso. apply Ha. rewrite <- Hf. by apply list_elem_of_fmap_2.
    + by apply IH.
Qed.

(** For entries with pairwise distinct addresses the sorted bucket does not
    depend on the order in which the entries were appended. *)
Theorem sortResourceDetails_order (l1 l2 : list (@ResourceDetail float64)) :
  l1 ≡ₚ l2 → NoDup (Address <$> l1) →
  sortResourceDetails l1 = sortResourceDetails l2.
Proof.
  intros Hperm Hnd.
  apply (StronglySorted_unique_strong addr_le);
    try apply sortResourceDetails_sorted.
  - intros d1 d2 Hd1 Hd2 H12 H21.
    rewrite sortResourceDetails_perm in Hd1.
    rewrite sortResourceDetails_perm, <- Hperm in Hd2.
    apply (NoDup_fmap_eq Address l1); try done.
    unfold addr_le in *. by apply (anti_symm String.le).
  - by rewrite !sortResourceDetails_perm.
Qed.

End Sorting.

Section DirectoryProperties.

Context {float64 : Type}.

Implicit Types (entries : list (@WalkEntry float64)).
Implicit Types (plans : list (@PlanInfo float64)).

Lemma insertPlan_perm (p : @PlanInfo float64) plans :
  insertPlan p plans ≡ₚ p :: plans.
Proof.
  induction plans as [|p' plans IH]; simpl; [done|].
  destruct (string_lt _ _); [done|].
  rewrite IH. apply Permutation_swap.
Qed.

Lemma sortPlans_perm plans : sortPlans plans ≡ₚ plans.
Proof.
  unfold sortPlans.
  assert (∀ acc, foldl (λ sorted p, insertPlan p sorted) acc plans ≡ₚ acc ++ plans)
    as Hloop.
  { induction plans as [|p plans IH]; intros acc; simpl.
    - by rewrite app_nil_r.
    - rewrite IH, insertPlan_perm. simpl. apply Permutation_middle. }
  apply Hloop.
Qed.

Lemma insertPlan_sorted (p : @PlanInfo float64) plans :
  StronglySorted path_le plans → StronglySorted path_le (insertPlan p plans).
Proof.
  induction 1 as [|p' plans Hl IH Hp']; simpl.
  - repeat constructor.
  - destruct (string_lt (RelativePath p) (RelativePath p')) eqn:Hlt.
    + apply string_lt_le in Hlt.
      constructor; [by constructor|].
      constructor; [done|].
      eapply Forall_impl; [exact Hp'|].
      intros p'' Hp''. unfold path_le in *. by etrans.
    + apply string_lt_ge in Hlt.
      constructor; [done|].
      rewrite insertPlan_perm. by constructor.
Qed.

Lemma sortPlans_sorted plans : StronglySorted path_le (sortPlans plans).
Proof.
  unfold sortPlans.
  assert (StronglySorted path_le (@nil (@PlanInfo float64))) as Hacc
    by constructor.
  revert Hacc. generalize (@nil (@PlanInfo float64)).
  induction plans as [|p plans IH]; intros acc Hacc; simpl; [done|].
  by apply IH, insertPlan_sorted.
Qed.

Lemma walkPlanFiles_kept entries :
  ∀ acc plans,
    walkPlanFiles entries acc = inr plans →
    Forall (λ p, ResourceChanges (Plan p) ≠ [] ∧ RelativePath p ≠ ".") acc →
    Forall (λ p, ResourceChanges (Plan p) ≠ [] ∧ RelativePath p ≠ ".") plans.
Proof.
  induction entries as [|entry entries IH]; intros acc plans Hwalk Hacc.
  - by injection Hwalk as <-.
  - cbn [walkPlanFiles] in Hwalk.
    destruct (walkErr entry); [done|].
    destruct (negb (infoIsDir entry) && bool_decide (infoName entry = "tfplan.json"));
      [|by eapply IH].
    destruct (pathPlan entry) as [plan|]; [|by eapply IH].
    destruct (hasNoChanges plan) eqn:Hnone; [by eapply IH|].
    eapply IH; [exact Hwalk|].
    apply Forall_app. split; [done|]. constructor; [|done].
    cbn [Plan RelativePath]. split.
    + unfold hasNoChanges in Hnone. apply bool_decide_eq_false in Hnone.
      intros Hnil. apply Hnone. by rewrite Hnil.
    + by case_bool_decide.
Qed.

(** When [findAndReadPlanFiles] succeeds, the plans it returns are sorted
    by relative path, each has at least one resource change, and none is
    labelled with a single dot. *)
Theorem findAndReadPlanFiles_plans entries plans :
  findAndReadPlanFiles entries = inr plans →
  (∀ i j pi pj, i < j → plans !! i = Some pi → plans !! j = Some pj →
     String.leb (RelativePath pi) (RelativePath pj) = true)
  ∧ ∀ p, p ∈ plans →
      hasNoChanges (Plan p) = false ∧ RelativePath p ≠ ".".
Proof.
  unfold findAndReadPlanFiles.
  destruct (walkPlanFiles entries []) as [err|found] eqn:Hwalk; [done|].
  intros [= <-]. split.
  - intros i j pi pj Hij Hi Hj. apply Is_true_true.
    exact (StronglySorted_lookup path_le _ i j pi pj
             (sortPlans_sorted _) Hij Hi Hj).
  - intros p Hp. rewrite sortPlans_perm in Hp.
    pose proof (walkPlanFiles_kept entries [] found Hwalk (Forall_nil_2 _))
      as Hkept.
    rewrite Forall_forall in Hkept. destruct (Hkept p Hp) as [Hne Hdot].
    split; [|done]. unfold hasNoChanges. apply bool_decide_eq_false.
    by destruct (ResourceChanges (Plan p)).
Qed.

Lemma walkPlanFiles_error entries :
  ∀ acc,
    match list_find (λ entry, is_Some (walkErr entry)) entries with
    | Some (_, entry) => walkPlanFiles entries acc = inl (default "" (walkErr entry))
    | None => ∃ plans, walkPlanFiles entries acc = inr plans
    end.
Proof.
  induction entries as [|entry entries IH]; intros acc.
  - by exists acc.
  - cbn [walkPlanFiles list_find].
    destruct (walkErr entry) as [err|] eqn:Herr.
    + rewrite decide_True by (by eexists). cbn. by rewrite Herr.
    + rewrite decide_False by (by intros [? ?]).
      destruct (negb (infoIsDir entry) && bool_decide (infoName entry = "tfplan.json")).
      * destruct (pathPlan entry) as [plan|].
        -- destruct (hasNoChanges plan).
           ++ specialize (IH acc). by destruct (list_find _ entries) as [[]|].
           ++ match goal with
              | |- context [walkPlanFiles entries ?a] => specialize (IH a)
              end.
              by destruct (list_find _ entries) as [[]|].
        -- specialize (IH acc). by destruct (list_find _ entries) as [[]|].
      * specialize (IH acc). by destruct (list_find _ entries) as [[]|].
Qed.

(** [findAndReadPlanFiles] fails exactly when the walk hands an error to the
    callback, and then with the first such error; a plan file that cannot
    be read or a relative path that cannot be computed never makes it
    fail. *)
Theorem findAndReadPlanFiles_error entries :
  match list_find (λ entry, is_Some (walkErr entry)) entries with
  | Some (_, entry) =>
      findAndReadPlanFiles entries
      = inl ("error walking directory: " +:+ default "" (walkErr entry))
  | None => ∃ plans, findAndReadPlanFiles entries = inr plans
  end.
Proof.
  unfold findAndReadPlanFiles.
  pose proof (walkPlanFiles_error entries []) as Hwalk.
  destruct (list_find _ entries) as [[i entry]|].
  - by rewrite Hwalk.
  - destruct Hwalk as [plans ->]. by eexists.
Qed.

End DirectoryProperties.

(** * The further properties at sample inputs *)

Section MoreSamples.

Import Sample Sample2.

(** The diff of the sample database resource names each attribute once. *)
Lemma analyzeAttributeChanges_NoDup_witness :
  fair backward
  ∧ NoDup (Attribute <$>
             run (analyzeAttributeChanges fmt backward (db_change ["update"])) 3).
Proof.
  split; [exact backward_fair|].
  exact (analyzeAttributeChanges_NoDup fmt backward 3 (db_change ["update"])
           backward_fair).
Defined.

(** Two states that differ at [id] only. *)
Lemma analyzeAttributeChanges_nil_iff_witness :
  fair forward
  ∧ Before id_only_change = VMap id_only_before
  ∧ After id_only_change = VMap id_only_after
  ∧ (run (analyzeAttributeChanges fmt forward id_only_change) 0 = []
     ↔ ∀ key, key ∉ skipAttributes →
         match id_only_before !! key, id_only_after !! key with
         | Some beforeVal, Some afterVal =>
             Sprint fmt beforeVal = Sprint fmt afterVal
         | None, None => True
         | _, _ => False
         end).
Proof.
  split; [exact forward_fair|]. split; [reflexivity|]. split; [reflexivity|].
  exact (analyzeAttributeChanges_nil_iff fmt forward 0 id_only_change
           id_only_before id_only_after forward_fair eq_refl eq_refl).
Defined.

(** The sample plan and its copy with the unread fields replaced. *)
Lemma unread_fields_witness :
  Forall2 same_inputs (ResourceChanges plan) (ResourceChanges retagged_plan)
  ∧ TerraformVersion plan = TerraformVersion retagged_plan
  ∧ run (generateMarkdownComment fmt forward plan) 0
    = run (generateMarkdownComment fmt forward retagged_plan) 0.
Proof.
  assert (Forall2 same_inputs (ResourceChanges plan)
            (ResourceChanges retagged_plan)) as Hsame.
  { repeat (constructor; [by repeat split|]). constructor. }
  split; [exact Hsame|]. split; [reflexivity|].
  exact (proj2 (unread_fields fmt forward 0 plan retagged_plan Hsame eq_refl)).
Defined.

(** The sample plan has five classified resource changes. *)
Lemma generateMarkdownComment_frame_witness :
  length (filter classified (ResourceChanges plan)) ≠ 0
  ∧ framed
      (("## ðŸ“‹ Terraform Plan Summary" +:+ LF +:+ LF)
       +:+ ("**Total resources affected:** " +:+ pretty (length (filter classified (ResourceChanges plan))) +:+ LF +:+ LF))
      (("---" +:+ LF) +:+ ("*Generated from Terraform " +:+ TerraformVersion plan +:+ " plan*" +:+ LF))
      (run (generateMarkdownComment fmt backward plan) 0).
Proof.
  assert (length (filter classified (ResourceChanges plan)) ≠ 0) as Htotal
    by (vm_compute; discriminate).
  split; [exact Htotal|].
  exact (generateMarkdownComment_frame fmt backward 0 plan Htotal).
Defined.

(** Two environments that share one Terraform version. *)
Lemma generateMultiPlanMarkdownComment_frame_witness :
  classified_total environments ≠ 0
  ∧ framed
      (("## ðŸ“‹ Multi-Environment Terraform Plan Summary" +:+ LF +:+ LF) +:+ ("**Environments processed:** " +:+ pretty (length environments) +:+ LF)
       +:+ ("**Total resources affected:** " +:+ pretty (classified_total environments) +:+ LF +:+ LF))
      (if decide (length (first_seen ((λ p, TerraformVersion (Plan p))
                                         <$> environments)) = 1)
       then ("*Generated from Terraform " +:+ default "" (head (first_seen ((λ p, TerraformVersion (Plan p)) <$> environments))) +:+ " plans*" +:+ LF)
       else ("*Generated from Terraform plans (versions: " +:+ Join (first_seen ((λ p, TerraformVersion (Plan p)) <$> environments)) ", " +:+ ")*" +:+ LF))
      (run (generateMultiPlanMarkdownComment fmt forward environments) 0).
Proof.
  assert (classified_total environments ≠ 0) as Htotal
    by (vm_compute; discriminate).
  split; [exact Htotal|].
  exact (generateMultiPlanMarkdownComment_frame fmt forward 0 environments
           Htotal).
Defined.

(** Three entries appended in two orders. *)
Lemma sortResourceDetails_order_witness :
  details ["b"; "a"; "c"] ≡ₚ reverse (details ["b"; "a"; "c"])
  ∧ NoDup (Address <$> details ["b"; "a"; "c"])
  ∧ sortResourceDetails (details ["b"; "a"; "c"])
    = sortResourceDetails (reverse (details ["b"; "a"; "c"])).
Proof.
  assert (details ["b"; "a"; "c"] ≡ₚ reverse (details ["b"; "a"; "c"]))
    as Hperm by (symmetry; apply reverse_Permutation).
  assert (NoDup (Address <$> details ["b"; "a"; "c"])) as Hnd.
  { apply (bool_decide_unpack _). vm_compute. exact I. }
  split; [exact Hperm|]. split; [exact Hnd|].
  exact (sortResourceDetails_order _ _ Hperm Hnd).
Defined.

(** A walk over a directory with one unreadable plan file, one plan
    without resource changes, one plan at the root and one whose relative
    path cannot be computed. *)
Lemma findAndReadPlanFiles_plans_witness :
  findAndReadPlanFiles entries = inr found
  ∧ (∀ i j pi pj, i < j → found !! i = Some pi → found !! j = Some pj →
       String.leb (RelativePath pi) (RelativePath pj) = true)
  ∧ ∀ p, p ∈ found → hasNoChanges (Plan p) = false ∧ RelativePath p ≠ ".".
Proof.
  assert (findAndReadPlanFiles entries = inr found) as Hfound
    by (vm_compute; reflexivity).
  split; [exact Hfound|].
  exact (findAndReadPlanFiles_plans entries found Hfound).
Defined.

(** A replacement in which, of the listed attributes, only [name] differs. *)
Lemma determineReplaceReason_single_witness :
  fair backward
  ∧ Before name_change = VMap name_before
  ∧ After name_change = VMap name_after
  ∧ "name" ∈ forceReplaceAttrs
  ∧ name_before !! "name" = Some (VStr "old")
  ∧ name_after !! "name" = Some (VStr "new")
  ∧ Sprint fmt (VStr "old") ≠ Sprint fmt (VStr "new")
  ∧ (∀ key', key' ∈ forceReplaceAttrs → key' ≠ "name" →
       name_before !! key' = name_after !! key')
  ∧ run (determineReplaceReason fmt backward name_change) 0
    = "Attribute 'name' changed from 'old' to 'new' (forces replacement)".
Proof.
  assert ("name" ∈ forceReplaceAttrs) as Hkey by (apply elem_of_cons; by left).
  assert (name_before !! "name" = Some (VStr "old")) as Hb
    by (vm_compute; reflexivity).
  assert (name_after !! "name" = Some (VStr "new")) as Ha
    by (vm_compute; reflexivity).
  assert (Sprint fmt (VStr "old") ≠ Sprint fmt (VStr "new")) as Hne
    by (vm_compute; discriminate).
  assert (∀ key', key' ∈ forceReplaceAttrs → key' ≠ "name" →
            name_before !! key' = name_after !! key') as Hothers.
  { intros key'. unfold forceReplaceAttrs.
    rewrite !elem_of_cons, elem_of_nil.
    intros [->|[->|[->|[->|[->|[]]]]]] Hne'; try done;
      vm_compute; reflexivity. }
  repeat (split; [first [exact backward_fair | reflexivity | assumption]|]).
  exact (determineReplaceReason_single fmt backward 0 name_change name_before
           name_after "name" (VStr "old") (VStr "new") backward_fair eq_refl
           eq_refl Hkey Hb Ha Hne Hothers).
Defined.

End MoreSamples.
